(** * robosat.pink [rasterize]: WKB raster decoder and tile pipeline

    A shallow embedding of [robosat_pink/tools/rasterize.py] (with the
    logger of [robosat_pink/logs.py]) and the properties of its
    specification.

    Conventions.
    - Python control flow is kept in an error monad, [Py.outcome]: a call
      returns, raises an exception derived from [Exception], or leaves
      through [sys.exit] ([SystemExit], which [except Exception] does not
      catch).
    - A [io.BytesIO] stream is the list of bytes that remain to be read.
    - A NumPy array is its element type, its shape and its raw buffer.
    - The libraries the program calls (rasterio, supermercado, mercantile,
      fiona, psycopg2, PIL) are parameters: section variables for the pure
      primitives, an environment record for the files and the database.
      Coordinates are floating-point numbers that the program only moves
      around; their type is a parameter as well. *)

From Stdlib Require Import ZArith Strings.Byte.
From stdpp Require Import base option list strings gmap.

Set Warnings "-register-all".
Local Open Scope Z_scope.

(** ** Python outcomes *)

Module Py.

(** The exception classes that the modelled code can meet.  All of them
    derive from [Exception]. *)
Inductive exn : Set :=
| StructError        (* struct.error *)
| IndexError
| TypeError
| ValueError
| AxisError          (* numpy AxisError, a ValueError and IndexError *)
| UnboundLocalError
| DatabaseError.     (* psycopg2.Error *)

(** [is_ValueError e]: would [except ValueError] catch [e]? *)
Definition is_ValueError (e : exn) : bool :=
  match e with
  | ValueError | AxisError => true
  | _ => false
  end.

Inductive outcome (A : Type) : Type :=
| Ok (a : A)
| Raise (e : exn)
| SysExit (msg : string).
Arguments Ok {A} a.
Arguments Raise {A} e.
Arguments SysExit {A} msg.

Definition bind {A B} (f : A → outcome B) (m : outcome A) : outcome B :=
  match m with
  | Ok a => f a
  | Raise e => Raise e
  | SysExit msg => SysExit msg
  end.

#[global] Instance outcome_ret : MRet outcome := @Ok.
#[global] Instance outcome_bind : MBind outcome := @bind.

(** [seq[i]] on a Python list, with the wrap-around of negative indexes. *)
Definition getitem {A} (l : list A) (i : Z) : outcome A :=
  let n := Z.of_nat (length l) in
  let j := if i <? 0 then i + n else i in
  if (0 <=? j) && (j <? n)
  then match l !! Z.to_nat j with
       | Some a => Ok a
       | None => Raise IndexError
       end
  else Raise IndexError.

End Py.
Import Py.

(** ** Bytes, streams and [struct.unpack] *)

Module Struct.

Definition byte_val (b : byte) : Z := Z.of_N (Byte.to_N b).

(** Unsigned value of a little-endian, resp. big-endian, byte string. *)
Fixpoint le_uint (bs : list byte) : Z :=
  match bs with
  | [] => 0
  | b :: bs' => byte_val b + 256 * le_uint bs'
  end.

Definition be_uint (bs : list byte) : Z := le_uint (rev bs).

(** Two's complement reading of a [w]-byte unsigned value. *)
Definition to_signed (w : nat) (u : Z) : Z :=
  if u <? 2 ^ (8 * Z.of_nat w - 1) then u else u - 2 ^ (8 * Z.of_nat w).

Inductive endianness : Set :=
| BigEndian          (* ">" *)
| LittleEndian.      (* "<" *)

Definition uint (e : endianness) (bs : list byte) : Z :=
  match e with
  | BigEndian => be_uint bs
  | LittleEndian => le_uint bs
  end.

(** The format characters used by the decoder. *)
Inductive fmt : Set :=
| fmt_b              (* signed char *)
| fmt_H              (* unsigned short *)
| fmt_I              (* unsigned int *)
| fmt_d.             (* double *)

Definition calcsize1 (f : fmt) : nat :=
  match f with
  | fmt_b => 1
  | fmt_H => 2
  | fmt_I => 4
  | fmt_d => 8
  end%nat.

Definition calcsize (fs : list fmt) : nat :=
  foldr (λ f n, calcsize1 f + n)%nat 0%nat fs.

(** Python values produced by [unpack].  A double keeps its eight bytes
    (most significant first): the decoder never looks at it. *)
Inductive value : Type :=
| VInt (z : Z)
| VDouble (raw : list byte)
| VTuple (vs : list value).

Definition unpack1 (e : endianness) (f : fmt) (bs : list byte) : value :=
  match f with
  | fmt_b => VInt (to_signed 1 (uint e bs))
  | fmt_H | fmt_I => VInt (uint e bs)
  | fmt_d => VDouble (match e with BigEndian => bs | LittleEndian => rev bs end)
  end.

Fixpoint unpack_fields (e : endianness) (fs : list fmt) (bs : list byte)
  : list value :=
  match fs with
  | [] => []
  | f :: fs' =>
      unpack1 e f (take (calcsize1 f) bs)
        :: unpack_fields e fs' (drop (calcsize1 f) bs)
  end.

(** [struct.unpack(e + fs, bs)]: a tuple, or [struct.error] when the
    buffer has not exactly the size of the format. *)
Definition unpack (e : endianness) (fs : list fmt) (bs : list byte)
  : outcome value :=
  if decide (length bs = calcsize fs)
  then Ok (VTuple (unpack_fields e fs bs))
  else Raise StructError.

(** [v == n] for an integer literal [n]: a tuple is never equal to a
    number. *)
Definition eq_int (v : value) (n : Z) : bool :=
  match v with
  | VInt z => z =? n
  | VDouble _ | VTuple _ => false
  end.

(** [t[0]] on the tuple returned by [unpack], then [int(...)]. *)
Definition int_item0 (v : value) : outcome Z :=
  match v with
  | VTuple (VInt z :: _) => Ok z
  | VTuple [] => Raise IndexError
  | _ => Raise TypeError
  end.

End Struct.
Import Struct.

(** [io.BytesIO]: the bytes not yet read. *)
Definition stream : Type := list byte.

(** [wkb.read(n)] for [n >= 0]: at most [n] bytes, fewer at the end of the
    stream, never an error. *)
Definition read (n : Z) (s : stream) : list byte * stream :=
  (take (Z.to_nat n) s, drop (Z.to_nat n) s).

(** ** NumPy arrays *)

Module Np.

(** The element types named by the decoder's table. *)
Inductive dtype : Set := b1 | u1 | i1 | i2 | u2 | i4 | u4 | f4 | f8.

#[global] Instance dtype_eq_dec : EqDecision dtype.
Proof. solve_decision. Defined.

Definition uint8 : dtype := u1.
(** The element type of [np.zeros(shape)] without [dtype]. *)
Definition float64 : dtype := f8.

Definition itemsize (d : dtype) : Z :=
  match d with
  | b1 | u1 | i1 => 1
  | i2 | u2 => 2
  | i4 | u4 | f4 => 4
  | f8 => 8
  end.

(** A two-dimensional array: rows, columns, row-major element bytes. *)
Record ndarray2 : Type := Array2 {
  a2_dtype : dtype;
  a2_rows : Z;
  a2_cols : Z;
  a2_data : list byte
}.

(** A three-dimensional array [(height, width, bands)], kept as one
    row-major plane of element bytes per band. *)
Record ndarray3 : Type := Array3 {
  a3_dtype : dtype;
  a3_height : Z;
  a3_width : Z;
  a3_bands : Z;
  a3_planes : list (list byte)
}.

Definition zero_bytes (n : Z) : list byte := replicate (Z.to_nat n) x00.

(** [np.zeros((rows, cols), dtype=d)] *)
Definition zeros2 (rows cols : Z) (d : dtype) : ndarray2 :=
  Array2 d rows cols (zero_bytes (rows * cols * itemsize d)).

(** [np.zeros((height, width, bands), dtype=d)] *)
Definition zeros3 (height width bands : Z) (d : dtype) : ndarray3 :=
  Array3 d height width bands
    (replicate (Z.to_nat bands) (zero_bytes (height * width * itemsize d))).

(** [np.ndarray((height, width), buffer=buf, dtype=d)]: a view of the
    buffer, [TypeError] when the buffer is too small. *)
Definition ndarray (height width : Z) (buf : list byte) (d : dtype)
  : outcome ndarray2 :=
  if Z.of_nat (length buf) <? height * width * itemsize d
  then Raise TypeError
  else Ok (Array2 d height width
             (take (Z.to_nat (height * width * itemsize d)) buf)).

(** [out[:, :, band] = a] *)
Definition set_band (out : ndarray3) (band : nat) (a : ndarray2) : ndarray3 :=
  Array3 (a3_dtype out) (a3_height out) (a3_width out) (a3_bands out)
    (<[band := a2_data a]> (a3_planes out)).

(** [np.squeeze(a, axis=2)]; [a] is [None] when the decoder returned
    nothing. *)
Definition squeeze_axis2 (a : option ndarray3) : outcome ndarray2 :=
  match a with
  | None => Raise AxisError
  | Some a =>
      match a3_planes a with
      | [p] => Ok (Array2 (a3_dtype a) (a3_height a) (a3_width a) p)
      | _ => Raise ValueError
      end
  end.

(** Every element of the array is zero. *)
Definition all_zero (a : ndarray2) : Prop := Forall (λ b, b = x00) (a2_data a).

End Np.
Import Np.

(** ** The WKB raster decoder *)

Module Wkb.

(** The argument of [wkb_to_numpy]: [None], or a stream object.  A stream
    object is true in a condition whatever it holds. *)
Definition wkb_arg : Type := option stream.

Definition truthy (wkb : wkb_arg) : bool :=
  match wkb with
  | None => false
  | Some _ => true
  end.

Definition offline_msg : string := "OffLine PostGIS WKB Data not supported.".
Definition mixed_msg : string := "Mixed PostGIS WBK Data type not supported.".

Definition size_table : list Z := [1; 1; 1; 1; 1; 2; 2; 4; 4; 4; 8].
Definition dtype_table : list dtype := [b1; u1; u1; i1; u1; i2; u2; i4; u4; f4; f8].

Definition header_fmt : list fmt :=
  [fmt_H; fmt_H; fmt_d; fmt_d; fmt_d; fmt_d; fmt_d; fmt_d; fmt_I; fmt_H; fmt_H].

(** [endian = ">" if struct.unpack("<b", wkb.read(1)) == 0 else "<"].
    The result of [unpack] is compared as it is, a tuple. *)
Definition read_endian (s : stream) : outcome (endianness * stream) :=
  let '(b, s) := read 1 s in
  t ← unpack LittleEndian [fmt_b] b;
  mret (if eq_int t 0 then BigEndian else LittleEndian, s).

Record header : Type := Header {
  h_bands : Z;
  h_srid : Z;
  h_width : Z;
  h_height : Z
}.

(** [(_, bands, _, _, _, _, _, _, srid, width, height) =
      struct.unpack(endian + "HHddddddIHH", wkb.read(60))] *)
Definition read_header (endian : endianness) (s : stream)
  : outcome (header * stream) :=
  let '(b, s) := read 60 s in
  t ← unpack endian header_fmt b;
  match t with
  | VTuple [_; VInt bands; _; _; _; _; _; _; VInt srid; VInt width; VInt height] =>
      mret (Header bands srid width height, s)
  | _ => Raise ValueError
  end.

(** The variables that the band loop assigns: [out] and [pixtype], and
    the stream. *)
Record loop_state : Type := LoopState {
  ls_out : option ndarray3;
  ls_pixtype : option Z;
  ls_stream : stream
}.

(** The body of [for band in range(bands)]. *)
Definition wkb_band (endian : endianness) (hd : header) (band : nat)
    (st : loop_state) : outcome loop_state :=
  let '(b, s) := read 1 (ls_stream st) in
  t ← unpack endian [fmt_b] b;
  bits ← int_item0 t;
  if negb (Z.land bits 128 =? 0) then SysExit offline_msg else
  size ← getitem size_table (Z.land bits 15);
  dtype ← getitem dtype_table (Z.land bits 15);
  let '(_, s) := read size s in
  st1 ←
    (if decide (band = 0%nat)
     then mret (Some (zeros3 (h_height hd) (h_width hd) (h_bands hd) dtype),
                Some (Z.land bits 15))
     else
       match ls_pixtype st with
       | None => Raise UnboundLocalError
       | Some pixtype =>
           if negb (pixtype =? Z.land bits 15) then SysExit mixed_msg
           else mret (ls_out st, ls_pixtype st)
       end);
  let '(out, pixtype) := st1 in
  let '(buf, s) := read (h_width hd * h_height hd * size) s in
  a ← ndarray (h_height hd) (h_width hd) buf dtype;
  match out with
  | None => Raise TypeError
  | Some o => mret (LoopState (Some (set_band o band a)) pixtype s)
  end.

(** [for band in range(bands): ...] over the indexes still to visit. *)
Fixpoint wkb_bands (endian : endianness) (hd : header) (todo : list nat)
    (st : loop_state) : outcome loop_state :=
  match todo with
  | [] => mret st
  | band :: todo' =>
      st' ← wkb_band endian hd band st;
      wkb_bands endian hd todo' st'
  end.

Definition range (n : Z) : list nat := seq 0 (Z.to_nat n).

Definition wkb_to_numpy (wkb : wkb_arg) : outcome (option ndarray3) :=
  match wkb with
  | None => mret None                      (* if not wkb: return None *)
  | Some s =>
      '(endian, s) ← read_endian s;
      '(hd, s) ← read_header endian s;
      st ← wkb_bands endian hd (range (h_bands hd)) (LoopState None None s);
      mret (ls_out st)
  end.

End Wkb.
Import Wkb.

(** ** The run: log, written tiles, database connections *)

(** [mercantile.Tile(x, y, z)] *)
Abbreviation Tile := (Z * Z * Z)%type.

Definition tile_z (t : Tile) : Z := t.2.

(** The lines given to [Logs.log], by format string and arguments. *)
Inductive log_entry : Type :=
| WarnInvalidFeature (i : Z)
    (* "Warning: invalid feature {}, skipping" *)
| NoticeNonSurfacic (ty : string) (i : Z)
    (* "Notice: {} is a non surfacic geometry type, skipping feature {}" *)
| WarnInvalidGeometries (t : Tile).
    (* "Warning: Invalid geometries, skipping {}" *)

(** What the run has done so far: the lines logged, the rasters handed to
    [write_tile] (oldest first), the connections opened to the database. *)
Record world : Type := World {
  w_log : list log_entry;
  w_written : list (Tile * ndarray2);
  w_connections : nat
}.

Definition world0 : world := World [] [] 0.

Module Run.

(** A computation of the run: an outcome and the world it leaves. *)
Definition run (A : Type) : Type := world → outcome A * world.

Definition ret {A} (a : A) : run A := λ w, (Ok a, w).

Definition bind {A B} (f : A → run B) (m : run A) : run B :=
  λ w, match m w with
       | (Ok a, w') => f a w'
       | (Raise e, w') => (Raise e, w')
       | (SysExit msg, w') => (SysExit msg, w')
       end.

#[global] Instance run_ret : MRet run := @ret.
#[global] Instance run_bind : MBind run := @bind.

Definition lift {A} (o : outcome A) : run A := λ w, (o, w).

(** [sys.exit(msg)] *)
Definition exit {A} (msg : string) : run A := lift (SysExit msg).

(** [try: body / except <class>: handler], for the exceptions that
    [catches] selects.  [SystemExit] passes through. *)
Definition try_except {A} (catches : exn → bool) (body : run A)
    (handler : run A) : run A :=
  λ w, match body w with
       | (Raise e, w') => if catches e then handler w' else (Raise e, w')
       | r => r
       end.

Definition except_Exception : exn → bool := λ _, true.
Definition except_ValueError : exn → bool := is_ValueError.

(** [for x in xs: acc = body(acc, x)] *)
Fixpoint for_fold {A S} (xs : list A) (body : S → A → run S) (acc : S) : run S :=
  match xs with
  | [] => ret acc
  | x :: xs' => acc' ← body acc x; for_fold xs' body acc'
  end.

(** [log.log(msg)] *)
Definition log (e : log_entry) : run unit :=
  λ w, (Ok tt, World (w_log w ++ [e]) (w_written w) (w_connections w)).

(** [write_tile(root, tile, colors, out)]: the image file is the
    concern of PIL; the run records what it was given. *)
Definition write_tile (tile : Tile) (out : ndarray2) : run unit :=
  λ w, (Ok tt, World (w_log w) (w_written w ++ [(tile, out)]) (w_connections w)).

(** [psycopg2.connect(dsn)], [pg_conn.cursor()] *)
Definition connect (reachable : bool) : run unit :=
  λ w, if reachable
       then (Ok tt, World (w_log w) (w_written w) (S (w_connections w)))
       else (Raise DatabaseError, w).

End Run.
Import Run.

(** ** GeoJSON geometries and the program's inputs *)

Section Pipeline.

(** Floating-point coordinates, tile bounds in Mercator and affine
    transforms belong to the geometry libraries. *)
Variables coord bounds affine : Type.

(** A ring is a list of points, a point a list of coordinates of any
    dimension; a polygon is the list of its rings. *)
Definition point : Type := list coord.
Definition ring : Type := list point.
Definition polygon : Type := list ring.

Inductive geometry : Type :=
| Polygon (coordinates : polygon)
| MultiPolygon (coordinates : list polygon)
| GeometryCollection (geometries : list geometry)
| OtherGeometry (type : string).   (* Point, LineString, ... *)

(** [geometry["type"]] *)
Definition geometry_type (g : geometry) : string :=
  match g with
  | Polygon _ => "Polygon"
  | MultiPolygon _ => "MultiPolygon"
  | GeometryCollection _ => "GeometryCollection"
  | OtherGeometry ty => ty
  end.

(** A file opened by [fiona]: the EPSG code of its CRS,
    [crs['init'][5:]], and the geometries of its features. *)
Record feature_collection : Type := FeatureCollection {
  fc_epsg : string;
  fc_features : list geometry
}.

(** What [pg.execute(query)] then [pg.fetchone()] give for a tile: an
    exception, no row, or a row whose single column is NULL or a WKB
    payload. *)
Inductive pg_reply : Type :=
| PgError
| PgNoRow
| PgRow (wkb : option (list byte)).

(** The command line.  [tile_size] is a number of pixels. *)
Record args : Type := Args {
  a_postgis : option string;
  a_geojson : option (list string);
  a_zoom : option Z;
  a_tile_size : option N
}.

(** The files and services around the run: the configuration, the cover
    file and the GeoJSON files can be read, and the database gives the
    same reply whenever it is asked about the same tile. *)
Record env : Type := Env {
  e_config_tile_size : N;                 (* config["model"]["tile_size"] *)
  e_cover : list Tile;                    (* tiles_from_csv(args.cover) *)
  e_fiona_open : string → feature_collection;
  e_pg_reachable : bool;                  (* psycopg2.connect succeeds *)
  e_pg_srid : option Z;                   (* the SRID query succeeds *)
  e_pg_query : Tile → pg_reply
}.

(** The primitives of supermercado, rasterio and mercantile. *)
Variable burn : polygon → option Z → outcome (list Tile).
Variable warp_transform : string → list (list coord) → outcome (list (list coord)).
Variable xy_bounds : Tile → bounds.
Variable from_bounds : bounds → Z → Z → affine.
Variable rasterize : list (polygon * Z) → Z * Z → affine → outcome ndarray2.

(** Truth of a command-line value in a condition. *)
Definition given_str (o : option string) : bool :=
  match o with
  | None | Some EmptyString => false
  | Some _ => true
  end.

Definition given_list {A} (o : option (list A)) : bool :=
  match o with
  | None | Some [] => false
  | Some _ => true
  end.

(** [zip] applied to the unpacked [rows]: their columns, as long as the
    shortest row. *)
Fixpoint zip_star_upto {A} (n : nat) (rows : list (list A)) : list (list A) :=
  match n with
  | O => []
  | S n' =>
      match mapM head rows with
      | None => []
      | Some col => col :: zip_star_upto n' (tail <$> rows)
      end
  end.

Definition zip_star {A} (rows : list (list A)) : list (list A) :=
  match rows with
  | [] => []
  | r :: _ => zip_star_upto (length r) rows
  end.

(** [mapM] in the outcome monad, left to right. *)
Fixpoint map_outcome {A B} (f : A → outcome B) (l : list A) : outcome (list B) :=
  match l with
  | [] => Ok []
  | a :: l' => b ← f a; bs ← map_outcome f l'; mret (b :: bs)
  end.

(** ** [geojson_to_mercator] and [geojson_tile_burn] *)

(** The Polygon geometry that [geojson_to_mercator] yields for a feature
    of the feature map (all of them are Polygons). *)
Definition geojson_to_mercator (feature : polygon) (epsg : string)
  : outcome polygon :=
  map_outcome (λ r, cols ← warp_transform epsg (zip_star r); mret (zip_star cols))
    feature.

Definition geojson_tile_burn (tile : Tile) (features : list polygon)
    (tile_size : Z) (burn_value : Z) (epsg : string) : outcome ndarray2 :=
  shapes ← map_outcome
            (λ f, g ← geojson_to_mercator f epsg; mret (g, burn_value))
            features;
  let b := xy_bounds tile in
  let transform := from_bounds b tile_size tile_size in
  rasterize shapes (tile_size, tile_size) transform.

(** ** [main]

    The configuration file, the output directory and the log file are
    taken to be readable and writable; the web viewer written at the end
    is left out. *)

Variable a : args.
Variable e : env.

Definition input_msg : string :=
  "Input features to rasterize must be either GeoJSON or PostGIS".
Definition zoom_msg : string :=
  "With GeoJson input, zoom level and cover tiles z values have to be the same.".
Definition connect_msg : string := "Unable to connect PostgreSQL".
Definition srid_msg : string := "Unable to retrieve geometry SRID.".

(** [args.tile_size if args.tile_size else config["model"]["tile_size"]] *)
Definition tile_size : Z :=
  Z.of_N (match a_tile_size a with
          | Some n => if (n =? 0)%N then e_config_tile_size e else n
          | None => e_config_tile_size e
          end).

Definition burn_value : Z := 1.

(** [feature_map[tile].append(feature)] on a [defaultdict(list)] *)
Definition fm_append (feature_map : gmap Tile (list polygon)) (tile : Tile)
    (feature : polygon) : gmap Tile (list polygon) :=
  <[tile := default [] (feature_map !! tile) ++ [feature]]> feature_map.

(** [[x, y] for point in ring for x, y in zip([point[0]], [point[1]])] *)
Definition ring_2d (r : ring) : outcome ring :=
  map_outcome (λ p, x ← getitem p 0; y ← getitem p 1; mret [x; y]) r.

(** The value of [i] after [for i, ring in enumerate(coordinates)]: the
    loop variable replaces the feature index as soon as there is a ring. *)
Definition index_after_rings (coordinates : polygon) (i : Z) : Z :=
  match coordinates with
  | [] => i
  | _ => Z.of_nat (length coordinates) - 1
  end.

Definition geojson_parse_polygon (feature_map : gmap Tile (list polygon))
    (coordinates : polygon) (i : Z) : run (gmap Tile (list polygon)) :=
  try_except except_ValueError
    (coordinates' ← lift (map_outcome ring_2d coordinates);
     tiles ← lift (burn coordinates' (a_zoom a));
     mret (foldl (λ fm tile, fm_append fm tile coordinates') feature_map tiles))
    (_ ← log (WarnInvalidFeature (index_after_rings coordinates i));
     mret feature_map).

Definition geojson_parse_geometry (feature_map : gmap Tile (list polygon))
    (g : geometry) (i : Z) : run (gmap Tile (list polygon)) :=
  match g with
  | Polygon coordinates => geojson_parse_polygon feature_map coordinates i
  | MultiPolygon coordinates =>
      for_fold coordinates (λ fm p, geojson_parse_polygon fm p i) feature_map
  | _ =>
      _ ← log (NoticeNonSurfacic (geometry_type g) i);
      mret feature_map
  end.

(** The body of [for i, feature in enumerate(feature_collection)]. *)
Definition geojson_parse_feature (feature_map : gmap Tile (list polygon))
    (feature : Z * geometry) : run (gmap Tile (list polygon)) :=
  let '(i, g) := feature in
  match g with
  | GeometryCollection geometries =>
      for_fold geometries (λ fm g', geojson_parse_geometry fm g' i) feature_map
  | _ => geojson_parse_geometry feature_map g i
  end.

(** [enumerate(xs)] *)
Definition enumerate {A} (xs : list A) : list (Z * A) :=
  imap (λ i x, (Z.of_nat i, x)) xs.

(** The body of [for geojson_file in args.geojson]: the loop carries the
    feature map and [epsg]. *)
Definition geojson_parse_file (acc : gmap Tile (list polygon) * string)
    (geojson_file : string) : run (gmap Tile (list polygon) * string) :=
  let fc := e_fiona_open e geojson_file in
  fm ← for_fold (enumerate (fc_features fc)) geojson_parse_feature acc.1;
  mret (fm, fc_epsg fc).

(** The body of the GeoJSON loop over the cover. *)
Definition geojson_tile (feature_map : gmap Tile (list polygon)) (epsg : string)
    (tile : Tile) : run unit :=
  out ← match feature_map !! tile with
        | Some features =>
            lift (geojson_tile_burn tile features tile_size burn_value epsg)
        | None => mret (zeros2 tile_size tile_size uint8)
        end;
  write_tile tile out.

Definition zoom_matches (tile : Tile) : bool :=
  match a_zoom a with
  | Some zoom => tile_z tile =? zoom
  | None => false
  end.

(** The block "Compute a spatial index like": the feature map, and the
    [epsg] of the last file. *)
Definition geojson_spatial_index : run (gmap Tile (list polygon) * string) :=
  for_fold (default [] (a_geojson a)) geojson_parse_file (∅, "4326").

Definition main_geojson : run unit :=
  if negb (forallb zoom_matches (e_cover e)) then exit zoom_msg else
  '(feature_map, epsg) ← geojson_spatial_index;
  for_fold (e_cover e) (λ _ tile, geojson_tile feature_map epsg tile) tt.

(** The body of the PostGIS loop over the cover. *)
Definition postgis_tile (tile : Tile) : run unit :=
  let raster := zeros2 tile_size tile_size float64 in
  raster ←
    try_except except_Exception
      (match e_pg_query e tile with
       | PgError => lift (Raise DatabaseError)
       | PgNoRow => mret raster
       | PgRow wkb =>
           out ← lift (wkb_to_numpy (Some (default [] wkb)));
           lift (squeeze_axis2 out)
       end)
      (_ ← log (WarnInvalidGeometries tile);
       _ ← connect (e_pg_reachable e);
       mret raster);
  write_tile tile raster.

Definition main_postgis : run unit :=
  _ ← try_except except_Exception (connect (e_pg_reachable e)) (exit connect_msg);
  _ ← match e_pg_srid e with
      | Some srid => mret srid
      | None => exit srid_msg
      end;
  for_fold (e_cover e) (λ _ tile, postgis_tile tile) tt.

Definition main : run unit :=
  if (given_list (a_geojson a) && given_str (a_postgis a))
     || (negb (given_list (a_geojson a)) && negb (given_str (a_postgis a)))
  then exit input_msg else
  _ ← (if given_list (a_geojson a) then main_geojson else mret tt);
  if given_str (a_postgis a) then main_postgis else mret tt.

End Pipeline.

Arguments Polygon {coord} coordinates.
Arguments MultiPolygon {coord} coordinates.
Arguments GeometryCollection {coord} geometries.
Arguments OtherGeometry {coord} type.
Arguments geometry_type {coord} g.
Arguments FeatureCollection {coord} fc_epsg fc_features.
Arguments fc_epsg {coord} f.
Arguments fc_features {coord} f.
Arguments Env {coord} e_config_tile_size e_cover e_fiona_open e_pg_reachable
  e_pg_srid e_pg_query.
Arguments e_config_tile_size {coord} e.
Arguments e_cover {coord} e.
Arguments e_fiona_open {coord} e _.
Arguments e_pg_reachable {coord} e.
Arguments e_pg_srid {coord} e.
Arguments e_pg_query {coord} e _.
Arguments geojson_to_mercator {coord} warp_transform feature epsg.
Arguments geojson_tile_burn {coord bounds affine} warp_transform xy_bounds
  from_bounds rasterize tile features tile_size burn_value epsg.
Arguments tile_size {coord} a e.
Arguments fm_append {coord} feature_map tile feature.
Arguments ring_2d {coord} r.
Arguments index_after_rings {coord} coordinates i.
Arguments geojson_parse_polygon {coord} burn a feature_map coordinates i _.
Arguments geojson_parse_geometry {coord} burn a feature_map g i _.
Arguments geojson_parse_feature {coord} burn a feature_map feature _.
Arguments geojson_parse_file {coord} burn a e acc geojson_file _.
Arguments geojson_spatial_index {coord} burn a e _.
Arguments geojson_tile {coord bounds affine} warp_transform xy_bounds
  from_bounds rasterize a e feature_map epsg tile _.
Arguments main_geojson {coord bounds affine} burn warp_transform xy_bounds
  from_bounds rasterize a e _.
Arguments postgis_tile {coord} a e tile _.
Arguments main_postgis {coord} a e _.
Arguments main {coord bounds affine} burn warp_transform xy_bounds
  from_bounds rasterize a e _.

(** ** Vocabulary of the properties *)

(** Bit 7 of a band's flag byte: the band is stored out of line. *)
Definition band_offline (flag : byte) : bool := Z.testbit (byte_val flag) 7.

(** The pixel-type code of a band: the low four bits of its flag byte. *)
Definition pixel_code (flag : byte) : Z := Z.land (byte_val flag) 15.

(** The value that the band loop calls [bits]. *)
Definition flag_bits (endian : endianness) (flag : byte) : Z :=
  to_signed 1 (uint endian [flag]).

(** The band loop of [wkb_to_numpy] when it starts on a payload. *)
Definition loop_start (s : stream) : loop_state := LoopState None None s.

(** Payloads for the examples: a raster header in either byte order. *)
Definition byte_of (z : Z) : byte := default x00 (Byte.of_N (Z.to_N z)).

Definition u16 (endian : endianness) (n : Z) : list byte :=
  match endian with
  | LittleEndian => [byte_of (n `mod` 256); byte_of (n `div` 256)]
  | BigEndian => [byte_of (n `div` 256); byte_of (n `mod` 256)]
  end.

Definition u32 (endian : endianness) (n : Z) : list byte :=
  match endian with
  | LittleEndian => u16 endian (n `mod` 65536) ++ u16 endian (n `div` 65536)
  | BigEndian => u16 endian (n `div` 65536) ++ u16 endian (n `mod` 65536)
  end.

(** Version 0, the band count, six doubles (scale, skew and the upper left
    corner, all 0.0), SRID 3857, width and height. *)
Definition raster_header (endian : endianness) (bands width height : Z)
  : list byte :=
  u16 endian 0 ++ u16 endian bands ++ replicate 48 x00
    ++ u32 endian 3857 ++ u16 endian width ++ u16 endian height.

(** One band of 8-bit unsigned pixels, a 1 x 1 raster, written big-endian
    behind the flag byte 0. *)
Definition big_endian_payload : list byte :=
  x00 :: raster_header BigEndian 1 1 1 ++ [x04; x00; x07].

(** The same raster written little-endian behind the flag byte 1. *)
Definition little_endian_payload : list byte :=
  x01 :: raster_header LittleEndian 1 1 1 ++ [x04; x00; x07].

(** Two bands on a 2 x 1 raster, little-endian; [flag1] is the flag byte of
    the second band, 8-bit unsigned pixels in the first. *)
Definition two_band_payload (flag1 : byte) : list byte :=
  x01 :: raster_header LittleEndian 2 2 1
    ++ [x04; x00; x01; x00] ++ [flag1; x00; x00; x01; x00; x00].

(** One band whose flag byte is [flag0]. *)
Definition one_band_payload (flag0 : byte) : list byte :=
  x01 :: raster_header LittleEndian 1 2 1 ++ [flag0; x00; x01; x00].

(** The decoder gets to band [k] of [payload] with the loop variables
    [st]: the two header reads succeed, the header announces more than [k]
    bands and the bands before [k] decode. *)
Definition decoder_reaches (payload : list byte) (endian : endianness)
    (hd : header) (k : nat) (st : loop_state) : Prop :=
  ∃ s1 s2,
    read_endian payload = Ok (endian, s1)
    ∧ read_header endian s1 = Ok (hd, s2)
    ∧ (k < Z.to_nat (h_bands hd))%nat
    ∧ wkb_bands endian hd (seq 0 k) (loop_start s2) = Ok st.

(** The flag byte that the next turn of the band loop reads. *)
Definition next_flag (st : loop_state) : option byte := head (ls_stream st).

(** The flag byte of band 0 follows the endianness byte and the 60 bytes
    of the header. *)
Definition band0_flag (payload : list byte) : option byte := payload !! 61%nat.

(** Worlds after one more connection, line or raster. *)
Definition connected (w : world) : world :=
  World (w_log w) (w_written w) (S (w_connections w)).

Definition logged (entry : log_entry) (w : world) : world :=
  World (w_log w ++ [entry]) (w_written w) (w_connections w).

Definition wrote (tile : Tile) (out : ndarray2) (w : world) : world :=
  World (w_log w) (w_written w ++ [(tile, out)]) (w_connections w).

(** The command line selects the PostGIS path, resp. the GeoJSON path. *)
Definition postgis_only (a : args) : Prop :=
  given_list (a_geojson a) = false ∧ given_str (a_postgis a) = true.

Definition geojson_only (a : args) : Prop :=
  given_list (a_geojson a) = true ∧ given_str (a_postgis a) = false.

(** The PostGIS run started in [w] gets to [tile] in [w'], with the tiles
    [post] still to come: the database answers, [tile] sits in the cover
    between [pre] and [post], and the tiles of [pre] are done. *)
Definition postgis_run_reaches {coord} (a : args) (e : env coord) (w : world)
    (pre : list Tile) (tile : Tile) (post : list Tile) (w' : world) : Prop :=
  e_pg_reachable e = true ∧ is_Some (e_pg_srid e)
  ∧ e_cover e = pre ++ tile :: post
  ∧ for_fold pre (λ _ t, postgis_tile a e t) tt (connected w) = (Ok tt, w').

(** The same for the GeoJSON run, once the zoom levels agree and the
    spatial index has given the feature map and [epsg]. *)
Definition geojson_run_reaches {coord bounds affine}
    (burn : polygon coord → option Z → outcome (list Tile))
    (warp_transform : string → list (list coord) → outcome (list (list coord)))
    (xy_bounds : Tile → bounds) (from_bounds : bounds → Z → Z → affine)
    (rasterize : list (polygon coord * Z) → Z * Z → affine → outcome ndarray2)
    (a : args) (e : env coord) (w : world)
    (feature_map : gmap Tile (list (polygon coord))) (epsg : string)
    (pre : list Tile) (tile : Tile) (post : list Tile) (w' : world) : Prop :=
  forallb (zoom_matches a) (e_cover e) = true
  ∧ e_cover e = pre ++ tile :: post
  ∧ ∃ w1,
      geojson_spatial_index burn a e w = (Ok (feature_map, epsg), w1)
      ∧ for_fold pre
          (λ _ t, geojson_tile warp_transform xy_bounds from_bounds rasterize
                    a e feature_map epsg t) tt w1
        = (Ok tt, w').

(** A run for the examples: coordinates are integers, the geometry
    primitives do as little as their types allow. *)
Definition burn_at (tiles : list Tile) : polygon Z → option Z → outcome (list Tile) :=
  λ _ _, Ok tiles.
Definition warp_id : string → list (list Z) → outcome (list (list Z)) :=
  λ _ cols, Ok cols.
(** Every pixel counts the shapes it was given. *)
Definition rasterize_count : list (polygon Z * Z) → Z * Z → unit → outcome ndarray2 :=
  λ shapes shape _,
    Ok (Array2 uint8 shape.1 shape.2
          (replicate (Z.to_nat (shape.1 * shape.2))
             (byte_of (Z.of_nat (length shapes))))).

Definition example_main (tiles : list Tile) (a : args) (e : env Z) : run unit :=
  main (burn_at tiles) warp_id (λ _, tt) (λ _ _ _, tt) rasterize_count a e.

Definition postgis_args : args := Args (Some "SELECT geom FROM building") None None None.

Definition geojson_args (zoom : Z) : args :=
  Args None (Some ["buildings.geojson"]) (Some zoom) None.

(** A cover, 2 x 2 pixels, and one GeoJSON file with [features]. *)
Definition geojson_env (cover : list Tile) (features : list (geometry Z)) : env Z :=
  Env 2 cover (λ _, FeatureCollection "4326" features) false None
    (λ _, PgError).

Definition square (x y : Z) : polygon Z :=
  [[[x; y]; [x + 1; y]; [x + 1; y + 1]; [x; y + 1]; [x; y]]].

(** One cover tile, 2 x 2 pixels, and a database that gives [reply]. *)
Definition postgis_env (reply : pg_reply) : env Z :=
  Env 2 [(0, 0, 1)] (λ _, FeatureCollection "4326" []) true (Some 4326)
    (λ _, reply).

(** Two worlds with the same rasters written and the same connections:
    they may differ by their logs. *)
Definition same_output (w1 w2 : world) : Prop :=
  w_written w1 = w_written w2 ∧ w_connections w1 = w_connections w2.

(** Two results with the same outcome and the same output. *)
Definition same_result {A} (r1 r2 : outcome A * world) : Prop :=
  r1.1 = r2.1 ∧ same_output r1.2 r2.2.

(** [l2] is [l1] with one MultiPolygon replaced, in place, by its members
    as Polygons. *)
Definition expands_multipolygon {coord} (l1 l2 : list (geometry coord)) : Prop :=
  ∃ pre members post,
    l1 = pre ++ MultiPolygon members :: post
    ∧ l2 = pre ++ (Polygon <$> members) ++ post.

(** Two files with the same CRS and the same features, but for one
    MultiPolygon that the second may give as separate Polygons. *)
Definition same_or_expanded {coord} (fc1 fc2 : feature_collection coord) : Prop :=
  fc_epsg fc1 = fc_epsg fc2
  ∧ (fc_features fc1 = fc_features fc2
     ∨ expands_multipolygon (fc_features fc1) (fc_features fc2)).

(** ** Vocabulary of the further properties *)

(** One band as it lies in a payload: the flag byte, the bytes of the
    no-data value, the pixel bytes. *)
Record band_source : Type := BandSource {
  bs_flag : byte;
  bs_nodata : list byte;
  bs_pixels : list byte
}.

Definition band_bytes (b : band_source) : list byte :=
  bs_flag b :: bs_nodata b ++ bs_pixels b.

Definition bands_bytes (bs : list band_source) : list byte :=
  mjoin (band_bytes <$> bs).

(** The band is stored in line with pixel-type code [code], a no-data
    value of [size] bytes and [width * height] pixels of [size] bytes. *)
Definition band_fits (hd : header) (code size : Z) (b : band_source) : Prop :=
  band_offline (bs_flag b) = false
  ∧ pixel_code (bs_flag b) = code
  ∧ length (bs_nodata b) = Z.to_nat size
  ∧ length (bs_pixels b) = Z.to_nat (h_width hd * h_height hd * size).

(** The array has the shape that the header announces, one plane per band
    and as many bytes in a plane as its pixels need. *)
Definition well_shaped (hd : header) (arr : ndarray3) : Prop :=
  a3_height arr = h_height hd
  ∧ a3_width arr = h_width hd
  ∧ a3_bands arr = h_bands hd
  ∧ length (a3_planes arr) = Z.to_nat (h_bands hd)
  ∧ Forall (λ p, length p
                 = Z.to_nat (h_height hd * h_width hd * itemsize (a3_dtype arr)))
      (a3_planes arr).

(** What the loop keeps true of [out] and [pixtype]. *)
Definition shape_kept (hd : header) (st : loop_state) : Prop :=
  ∀ o, ls_out st = Some o →
    well_shaped hd o
    ∧ ∃ code, ls_pixtype st = Some code
              ∧ getitem dtype_table code = Ok (a3_dtype o).

(** [np.squeeze(wkb_to_numpy(io.BytesIO(row[0])), axis=2)] for the column
    of a row. *)
Definition decoded_raster (wkb : option (list byte)) : outcome ndarray2 :=
  out ← wkb_to_numpy (Some (default [] wkb));
  squeeze_axis2 out.

(** The PostGIS path ends up in its exception handler for the tile: the
    query raises, or the decoding of the row does. *)
Definition postgis_failed {coord} (e : env coord) (tile : Tile) : bool :=
  match e_pg_query e tile with
  | PgError => true
  | PgNoRow => false
  | PgRow wkb =>
      match decoded_raster wkb with
      | Raise _ => true
      | _ => false
      end
  end.

(** The raster that the PostGIS path has for the tile when it gets to
    [write_tile]: the decoded band, or else the blank raster. *)
Definition postgis_raster {coord} (a : args) (e : env coord) (tile : Tile)
  : ndarray2 :=
  match e_pg_query e tile with
  | PgRow wkb =>
      match decoded_raster wkb with
      | Ok raster => raster
      | _ => zeros2 (tile_size a e) (tile_size a e) float64
      end
  | _ => zeros2 (tile_size a e) (tile_size a e) float64
  end.

(** No row of the cover makes the decoder leave through [sys.exit]. *)
Definition postgis_no_exit {coord} (e : env coord) : Prop :=
  ∀ tile wkb msg,
    tile ∈ e_cover e → e_pg_query e tile = PgRow wkb →
    decoded_raster wkb ≠ SysExit msg.

(** A database for the examples: the query fails on tiles of column 0,
    gives no row on column 1 and a one-band 2 x 1 raster elsewhere. *)
Definition example_query (tile : Tile) : pg_reply :=
  if tile.1.1 =? 0 then PgError
  else if tile.1.1 =? 1 then PgNoRow
  else PgRow (Some (one_band_payload x04)).

Definition example_postgis_env : env Z :=
  Env 2 [(0, 0, 2); (1, 0, 2); (2, 0, 2)] (λ _, FeatureCollection "4326" [])
    true (Some 4326) example_query.

(** A polygon cut down to its first two coordinates, point by point. *)
Definition polygon_2d {coord} (p : polygon coord) : polygon coord :=
  (λ r : list (list coord), take 2 <$> r) <$> (p : list (list (list coord))).

(** Every point of the polygon has at least, resp. exactly, two
    coordinates. *)
Definition has_xy {coord} (p : polygon coord) : Prop :=
  Forall (Forall (λ pt : point coord, (2 ≤ length pt)%nat)) p.

Definition is_2d {coord} (p : polygon coord) : Prop :=
  Forall (Forall (λ pt : point coord, length pt = 2%nat)) p.

(** How many times [tile] occurs in [tiles]. *)
Definition occurrences (tile : Tile) (tiles : list Tile) : nat :=
  length (List.filter (λ t, bool_decide (t = tile)) tiles).

(** Every entry of the feature map is a non-empty list of 2-D polygons. *)
Definition feature_map_ok {coord} (fm : gmap Tile (list (polygon coord))) : Prop :=
  ∀ tile features,
    fm !! tile = Some features → features ≠ [] ∧ Forall is_2d features.

(** The raster that the GeoJSON path has for the tile when it gets to
    [write_tile]: the burnt features of its entry, or the blank raster. *)
Definition geojson_raster {coord bounds affine}
    (warp_transform : string → list (list coord) → outcome (list (list coord)))
    (xy_bounds : Tile → bounds) (from_bounds : bounds → Z → Z → affine)
    (rasterize : list (polygon coord * Z) → Z * Z → affine → outcome ndarray2)
    (a : args) (e : env coord)
    (feature_map : gmap Tile (list (polygon coord))) (epsg : string)
    (tile : Tile) : ndarray2 :=
  match feature_map !! tile with
  | Some features =>
      match geojson_tile_burn warp_transform xy_bounds from_bounds rasterize
              tile features (tile_size a e) burn_value epsg with
      | Ok raster => raster
      | _ => zeros2 (tile_size a e) (tile_size a e) uint8
      end
  | None => zeros2 (tile_size a e) (tile_size a e) uint8
  end.

(** The burn of every cover tile that has features returns. *)
Definition geojson_burns_return {coord bounds affine}
    (warp_transform : string → list (list coord) → outcome (list (list coord)))
    (xy_bounds : Tile → bounds) (from_bounds : bounds → Z → Z → affine)
    (rasterize : list (polygon coord * Z) → Z * Z → affine → outcome ndarray2)
    (a : args) (e : env coord)
    (feature_map : gmap Tile (list (polygon coord))) (epsg : string) : Prop :=
  ∀ tile features,
    tile ∈ e_cover e → feature_map !! tile = Some features →
    ∃ raster,
      geojson_tile_burn warp_transform xy_bounds from_bounds rasterize
        tile features (tile_size a e) burn_value epsg = Ok raster.





(** The first, resp. second, coordinates of the points of a 2-D ring. *)
Definition ring_xs {coord} (r : ring coord) : list coord :=
  mjoin (take 1 <$> (r : list (list coord))).

Definition ring_ys {coord} (r : ring coord) : list coord :=
  mjoin (drop 1 <$> (r : list (list coord))).

(** A ring of at least one point, all of them 2-D. *)
Definition ring_xy {coord} (r : ring coord) : Prop :=
  r ≠ [] ∧ Forall (λ pt : point coord, length pt = 2%nat) r.

(** Payloads and runs for the further examples.  Two bands of 8-bit
    unsigned pixels on a 2 x 1 raster, the second with the no-data bit of
    its flag byte set, little-endian behind the endianness byte 0, and one
    byte too many. *)
Definition fitting_bands : list band_source :=
  [BandSource x04 [x00] [x01; x02]; BandSource x44 [xff] [x03; x04]].

Definition fitting_payload : list byte :=
  x00 :: raster_header LittleEndian 2 2 1 ++ bands_bytes fitting_bands ++ [xaa].


(** A polygon with elevations. *)
Definition triangle_3d : polygon Z :=
  [[[0; 0; 7]; [4; 0; 7]; [0; 4; 9]; [0; 0; 7]]].

Definition burn_fails (ex : exn) : polygon Z → option Z → outcome (list Tile) :=
  λ _ _, Raise ex.

(** * Properties *)

Arguments ndarray : simpl never.
Arguments getitem : simpl never.

(** ** Facts about the flag byte *)

Lemma flag_bits_offline endian flag :
  negb (Z.land (flag_bits endian flag) 128 =? 0) = band_offline flag.
Proof. destruct endian, flag; reflexivity. Qed.

Lemma flag_bits_code endian flag :
  Z.land (flag_bits endian flag) 15 = pixel_code flag.
Proof. destruct endian, flag; reflexivity. Qed.

Lemma pixel_code_range flag : 0 ≤ pixel_code flag ≤ 15.
Proof. destruct flag; vm_compute; split; discriminate. Qed.

(** ** Lookups in the decoder's tables *)

Lemma getitem_out_of_range {A} (l : list A) (i : Z) :
  Z.of_nat (length l) ≤ i → getitem l i = Raise IndexError.
Proof.
  intros Hi. unfold getitem.
  destruct (Z.ltb_spec i 0); [lia|].
  destruct (Z.leb_spec 0 i), (Z.ltb_spec i (Z.of_nat (length l)));
    simpl; try reflexivity; lia.
Qed.

Lemma getitem_in_range {A} (l : list A) (i : Z) :
  0 ≤ i < Z.of_nat (length l) → ∃ x, getitem l i = Ok x.
Proof.
  intros Hi. unfold getitem.
  destruct (Z.ltb_spec i 0); [lia|].
  destruct (Z.leb_spec 0 i), (Z.ltb_spec i (Z.of_nat (length l)));
    simpl; try lia.
  destruct (lookup_lt_is_Some_2 l (Z.to_nat i)) as [x Hx]; [lia|].
  rewrite Hx. by exists x.
Qed.

(** ** One turn of the band loop, by what the flag byte says *)

Lemma wkb_band_flag endian hd band out pix flag rest :
  wkb_band endian hd band (LoopState out pix (flag :: rest)) =
    let bits := flag_bits endian flag in
    if negb (Z.land bits 128 =? 0) then SysExit offline_msg else
    size ← getitem size_table (Z.land bits 15);
    dtype ← getitem dtype_table (Z.land bits 15);
    let '(_, s) := read size rest in
    st1 ←
      (if decide (band = 0%nat)
       then mret (Some (zeros3 (h_height hd) (h_width hd) (h_bands hd) dtype),
                  Some (Z.land bits 15))
       else
         match pix with
         | None => Raise UnboundLocalError
         | Some pixtype =>
             if negb (pixtype =? Z.land bits 15) then SysExit mixed_msg
             else mret (out, pix)
         end);
    let '(out, pixtype) := st1 in
    let '(buf, s) := read (h_width hd * h_height hd * size) s in
    a ← ndarray (h_height hd) (h_width hd) buf dtype;
    match out with
    | None => Raise TypeError
    | Some o => mret (LoopState (Some (set_band o band a)) pixtype s)
    end.
Proof. reflexivity. Qed.

Lemma wkb_band_offline endian hd band st flag rest :
  ls_stream st = flag :: rest → band_offline flag = true →
  wkb_band endian hd band st = SysExit offline_msg.
Proof.
  destruct st as [out pix s]; simpl; intros -> Hoff.
  rewrite wkb_band_flag. cbv zeta.
  by rewrite flag_bits_offline, Hoff.
Qed.

Lemma wkb_band_out_of_table endian hd band st flag rest :
  ls_stream st = flag :: rest → band_offline flag = false →
  11 ≤ pixel_code flag →
  wkb_band endian hd band st = Raise IndexError.
Proof.
  destruct st as [out pix s]; simpl; intros -> Hoff Hcode.
  rewrite wkb_band_flag. cbv zeta.
  rewrite flag_bits_offline, Hoff, flag_bits_code.
  by rewrite (getitem_out_of_range size_table) by (simpl; lia).
Qed.

Lemma wkb_band_mixed endian hd band st flag rest pixtype :
  ls_stream st = flag :: rest → ls_pixtype st = Some pixtype →
  band ≠ 0%nat → band_offline flag = false →
  pixel_code flag ≤ 10 → pixel_code flag ≠ pixtype →
  wkb_band endian hd band st = SysExit mixed_msg.
Proof.
  destruct st as [out pix s]; simpl; intros -> -> Hband Hoff Hcode Hne.
  rewrite wkb_band_flag. cbv zeta.
  rewrite flag_bits_offline, Hoff, flag_bits_code.
  pose proof (pixel_code_range flag) as Hr.
  destruct (getitem_in_range size_table (pixel_code flag)) as [size ->];
    [simpl; lia|].
  destruct (getitem_in_range dtype_table (pixel_code flag)) as [dtype ->];
    [simpl; lia|].
  simpl. rewrite decide_False by done.
  destruct (Z.eqb_spec pixtype (pixel_code flag)); [congruence|done].
Qed.

(** ** The band loop as a whole *)

Ltac case_ndarray :=
  match goal with
  | |- context [ndarray ?h ?w ?b ?d] =>
      destruct (ndarray h w b d); simpl; try discriminate
  end.

Lemma wkb_bands_app endian hd l1 l2 st :
  wkb_bands endian hd (l1 ++ l2) st =
    st' ← wkb_bands endian hd l1 st; wkb_bands endian hd l2 st'.
Proof.
  revert st. induction l1 as [|band l1 IH]; intros st; [reflexivity|].
  simpl. destruct (wkb_band endian hd band st) as [st'| |]; simpl; auto.
Qed.

Lemma range_split n k :
  (k < Z.to_nat n)%nat →
  range n = seq 0 k ++ k :: seq (S k) (Z.to_nat n - S k).
Proof.
  intros Hk. unfold range.
  replace (Z.to_nat n) with (k + S (Z.to_nat n - S k))%nat at 1 by lia.
  by rewrite seq_app.
Qed.

(** The decoder on a payload whose first [k] bands decode: what remains
    is band [k], then the bands after it. *)
Lemma wkb_to_numpy_at_band payload endian s1 hd s2 k st :
  read_endian payload = Ok (endian, s1) →
  read_header endian s1 = Ok (hd, s2) →
  (k < Z.to_nat (h_bands hd))%nat →
  wkb_bands endian hd (seq 0 k) (loop_start s2) = Ok st →
  wkb_to_numpy (Some payload) =
    st' ← wkb_band endian hd k st;
    st'' ← wkb_bands endian hd (seq (S k) (Z.to_nat (h_bands hd) - S k)) st';
    mret (ls_out st'').
Proof.
  intros He Hh Hk Hpre. unfold wkb_to_numpy.
  rewrite He; simpl. rewrite Hh; simpl.
  rewrite (range_split _ k Hk), wkb_bands_app.
  fold (loop_start s2). rewrite Hpre. simpl.
  destruct (wkb_band endian hd k st); reflexivity.
Qed.

Lemma wkb_band_end_of_stream endian hd band st :
  ls_stream st = [] → wkb_band endian hd band st = Raise StructError.
Proof. destruct st as [out pix s]; simpl; intros ->. reflexivity. Qed.

(** [pixtype] is assigned by band 0 and by no other band. *)
Lemma wkb_band_pixtype_first endian hd st flag rest st' :
  ls_stream st = flag :: rest →
  wkb_band endian hd 0 st = Ok st' →
  ls_pixtype st' = Some (pixel_code flag).
Proof.
  destruct st as [out pix s]; simpl; intros ->.
  rewrite wkb_band_flag. cbv zeta. rewrite flag_bits_code.
  destruct (negb _); [discriminate|].
  destruct (getitem size_table _) as [size| |]; simpl; try discriminate.
  destruct (getitem dtype_table _) as [dtype| |]; simpl; try discriminate.
  case_ndarray. by intros [= <-].
Qed.

Lemma wkb_band_pixtype_later endian hd band st st' :
  band ≠ 0%nat →
  wkb_band endian hd band st = Ok st' →
  ls_pixtype st' = ls_pixtype st.
Proof.
  intros Hband. destruct st as [out pix [|flag rest]].
  { by rewrite wkb_band_end_of_stream. }
  rewrite wkb_band_flag. cbv zeta.
  destruct (negb _); [discriminate|].
  destruct (getitem size_table _) as [size| |]; simpl; try discriminate.
  destruct (getitem dtype_table _) as [dtype| |]; simpl; try discriminate.
  rewrite decide_False by done.
  destruct pix as [pixtype|]; [|discriminate].
  destruct (negb _); [discriminate|]. simpl.
  case_ndarray. destruct out; [|discriminate].
  by intros [= <-].
Qed.

Lemma wkb_bands_pixtype_later endian hd todo st st' :
  Forall (λ band, band ≠ 0%nat) todo →
  wkb_bands endian hd todo st = Ok st' →
  ls_pixtype st' = ls_pixtype st.
Proof.
  intros Htodo. revert st.
  induction Htodo as [|band todo Hband _ IH]; intros st; simpl.
  { by intros [= <-]. }
  destruct (wkb_band endian hd band st) as [st1| |] eqn:Hst1;
    simpl; try discriminate.
  intros Hrest. rewrite (IH _ Hrest).
  by apply (wkb_band_pixtype_later endian hd band).
Qed.

(** After band 0 and any number of further bands, [pixtype] is the code
    of band 0, whose flag byte opens the band data. *)
Lemma wkb_bands_pixtype endian hd k flag0 s st :
  (1 ≤ k)%nat →
  wkb_bands endian hd (seq 0 k) (loop_start (flag0 :: s)) = Ok st →
  ls_pixtype st = Some (pixel_code flag0).
Proof.
  intros Hk. destruct k as [|k]; [lia|]. simpl.
  destruct (wkb_band endian hd 0 _) as [st1| |] eqn:Hst1;
    simpl; try discriminate.
  intros Hrest.
  rewrite (wkb_bands_pixtype_later endian hd (seq 1 k) st1 st).
  - by apply (wkb_band_pixtype_first endian hd (loop_start (flag0 :: s)) flag0 s).
  - apply Forall_seq. intros; lia.
  - exact Hrest.
Qed.

(** ** The run around the decoder *)

Lemma for_fold_app {A S} (xs ys : list A) (body : S → A → run S) acc w :
  for_fold (xs ++ ys) body acc w =
    match for_fold xs body acc w with
    | (Ok acc', w') => for_fold ys body acc' w'
    | (Raise ex, w') => (Raise ex, w')
    | (SysExit msg, w') => (SysExit msg, w')
    end.
Proof.
  revert acc w. induction xs as [|x xs IH]; intros acc w; [reflexivity|].
  simpl. unfold mbind, run_bind, Run.bind.
  destruct (body acc x w) as [[acc'| |] w']; auto.
Qed.

Section PostgisRun.
Context {coord bounds affine : Type}.
Variable burn : polygon coord → option Z → outcome (list Tile).
Variable warp_transform : string → list (list coord) → outcome (list (list coord)).
Variable xy_bounds : Tile → bounds.
Variable from_bounds : bounds → Z → Z → affine.
Variable rasterize : list (polygon coord * Z) → Z * Z → affine → outcome ndarray2.
Variable a : args.
Variable e : env coord.

Lemma main_postgis_only w :
  postgis_only a →
  main burn warp_transform xy_bounds from_bounds rasterize a e w =
    main_postgis a e w.
Proof. intros [Hg Hp]. unfold main. by rewrite Hg, Hp. Qed.

Lemma main_postgis_cover w :
  e_pg_reachable e = true → is_Some (e_pg_srid e) →
  main_postgis a e w =
    for_fold (e_cover e) (λ _ t, postgis_tile a e t) tt (connected w).
Proof.
  intros Hr [srid Hs]. unfold main_postgis.
  unfold mbind, run_bind, Run.bind, try_except, connect.
  by rewrite Hr, Hs.
Qed.

(** [sys.exit] inside the decoder is not an [Exception]: the tile's
    handler lets it through, nothing is logged or written. *)
Lemma postgis_tile_exit tile wkb msg w :
  e_pg_query e tile = PgRow wkb →
  wkb_to_numpy (Some (default [] wkb)) = SysExit msg →
  postgis_tile a e tile w = (SysExit msg, w).
Proof.
  intros Hq Hd. unfold postgis_tile.
  unfold mbind, run_bind, Run.bind, try_except, lift.
  rewrite Hq. cbv beta iota. by rewrite Hd.
Qed.

(** An exception of the decoder is caught: a line in the log, a new
    connection, and the blank raster is written. *)
Lemma postgis_tile_raise tile wkb ex w :
  e_pg_query e tile = PgRow wkb →
  wkb_to_numpy (Some (default [] wkb)) = Raise ex →
  e_pg_reachable e = true →
  postgis_tile a e tile w =
    (Ok tt, wrote tile (zeros2 (tile_size a e) (tile_size a e) float64)
              (connected (logged (WarnInvalidGeometries tile) w))).
Proof.
  intros Hq Hd Hr. unfold postgis_tile.
  unfold mbind, run_bind, Run.bind, try_except, lift.
  rewrite Hq. cbv beta iota. rewrite Hd. cbv beta iota.
  unfold log, connect. simpl. by rewrite Hr.
Qed.

Lemma postgis_run_exit pre tile post payload msg w w' :
  postgis_only a →
  postgis_run_reaches a e w pre tile post w' →
  e_pg_query e tile = PgRow (Some payload) →
  wkb_to_numpy (Some payload) = SysExit msg →
  main burn warp_transform xy_bounds from_bounds rasterize a e w =
    (SysExit msg, w').
Proof.
  intros Ha (Hr & Hs & Hcover & Hpre) Hq Hd.
  rewrite main_postgis_only, main_postgis_cover by done.
  rewrite Hcover, for_fold_app, Hpre. simpl.
  unfold mbind, run_bind, Run.bind.
  by rewrite (postgis_tile_exit tile (Some payload) msg).
Qed.

End PostgisRun.

(** ** Where the band data starts *)

Lemma read_endian_stream payload endian s1 :
  read_endian payload = Ok (endian, s1) → s1 = drop 1 payload.
Proof.
  unfold read_endian, read.
  destruct (unpack LittleEndian [fmt_b] _); simpl; try discriminate.
  by intros [= _ <-].
Qed.

Lemma read_header_stream endian s1 hd s2 :
  read_header endian s1 = Ok (hd, s2) → s2 = drop 60 s1.
Proof.
  unfold read_header, read.
  destruct (unpack endian header_fmt _); simpl; try discriminate.
  repeat case_match; try discriminate.
  by intros [= _ <-].
Qed.

Lemma decoder_reaches_band0 payload endian hd k st flag0 :
  decoder_reaches payload endian hd k st →
  band0_flag payload = Some flag0 →
  ∃ s, wkb_bands endian hd (seq 0 k) (loop_start (flag0 :: s)) = Ok st.
Proof.
  intros (s1 & s2 & He & Hh & _ & Hpre) Hflag.
  apply read_endian_stream in He. apply read_header_stream in Hh.
  subst s1 s2. rewrite drop_drop in Hpre. simpl in Hpre.
  rewrite (drop_S _ _ _ Hflag) in Hpre. eauto.
Qed.

Lemma decoder_reaches_at_band payload endian hd k st :
  decoder_reaches payload endian hd k st →
  wkb_to_numpy (Some payload) =
    st' ← wkb_band endian hd k st;
    st'' ← wkb_bands endian hd (seq (S k) (Z.to_nat (h_bands hd) - S k)) st';
    mret (ls_out st'').
Proof.
  intros (s1 & s2 & He & Hh & Hk & Hpre).
  by apply (wkb_to_numpy_at_band payload endian s1 hd s2).
Qed.

Lemma next_flag_stream st flag :
  next_flag st = Some flag → ∃ rest, ls_stream st = flag :: rest.
Proof.
  unfold next_flag. destruct (ls_stream st) as [|b rest]; [discriminate|].
  intros [= ->]. eauto.
Qed.

(** ** The decoder and its helpers on small inputs *)

Example two_bands_decode :
  wkb_to_numpy (Some (two_band_payload x04))
    = Ok (Some (Array3 u1 1 2 2 [[x01; x00]; [x00; x01]])).
Proof. vm_compute. reflexivity. Qed.

Example truncated_band_raises :
  wkb_to_numpy (Some (x01 :: raster_header LittleEndian 1 2 1 ++ [x04; x00; x01]))
    = Raise TypeError.
Proof. vm_compute. reflexivity. Qed.

Example no_band_gives_none :
  wkb_to_numpy (Some (x01 :: raster_header LittleEndian 0 2 1)) = Ok None.
Proof. vm_compute. reflexivity. Qed.

Example getitem_last : getitem [10; 20; 30] (-1) = Ok 30.
Proof. reflexivity. Qed.

Example zip_star_points :
  zip_star [[1; 2]; [3; 4]; [5; 6]] = [[1; 3; 5]; [2; 4; 6]].
Proof. reflexivity. Qed.

(** ** The properties of the decoder *)

(** C1 (the code departs from it).  The endianness byte never selects
    big-endian: [read_endian] answers little-endian for every flag byte,
    0 included.  On a big-endian 1 x 1 raster behind the flag byte 0 the
    header is therefore read as 256 bands of 256 x 256 pixels instead of
    1 band of 1 x 1, and the decoder raises [TypeError] on the band data;
    the same raster written little-endian decodes. *)
Theorem wkb_flag_zero_read_little_endian :
  (∀ flag s, read_endian (flag :: s) = Ok (LittleEndian, s))
  ∧ read_header BigEndian (tail big_endian_payload)
      = Ok (Header 1 3857 1 1, [x04; x00; x07])
  ∧ read_header LittleEndian (tail big_endian_payload)
      = Ok (Header 256 286195712 256 256, [x04; x00; x07])
  ∧ wkb_to_numpy (Some big_endian_payload) = Raise TypeError
  ∧ wkb_to_numpy (Some little_endian_payload)
      = Ok (Some (Array3 u1 1 1 1 [[x07]])).
Proof.
  split; [intros flag s; reflexivity|].
  repeat split; vm_compute; reflexivity.
Qed.

(** C4 (the code departs from it).  An absent input, [None], gives
    [None]; an empty stream passes the test [if not wkb] and the read of
    the endianness byte raises [struct.error]. *)
Theorem wkb_to_numpy_empty_stream_raises :
  wkb_to_numpy None = Ok None
  ∧ truthy (Some []) = true
  ∧ wkb_to_numpy (Some []) = Raise StructError.
Proof. repeat split. Qed.

Section DecoderInRun.
Context {coord bounds affine : Type}.
Variable burn : polygon coord → option Z → outcome (list Tile).
Variable warp_transform : string → list (list coord) → outcome (list (list coord)).
Variable xy_bounds : Tile → bounds.
Variable from_bounds : bounds → Z → Z → affine.
Variable rasterize : list (polygon coord * Z) → Z * Z → affine → outcome ndarray2.

(** C5.  Whenever the decoder gets to a band whose flag byte has bit 7
    set, that turn of the loop and the decoder as a whole leave through
    [sys.exit] with the out-of-line message; and a PostGIS run that gets
    to a tile with such a payload ends there with the same exit, the tile
    neither logged nor written. *)
Theorem offline_band_exits payload endian hd k st flag :
  decoder_reaches payload endian hd k st →
  next_flag st = Some flag →
  band_offline flag = true →
  wkb_band endian hd k st = SysExit offline_msg
  ∧ wkb_to_numpy (Some payload) = SysExit offline_msg
  ∧ ∀ (a : args) (e : env coord) pre tile post w w',
      postgis_only a →
      postgis_run_reaches a e w pre tile post w' →
      e_pg_query e tile = PgRow (Some payload) →
      main burn warp_transform xy_bounds from_bounds rasterize a e w
        = (SysExit offline_msg, w').
Proof.
  intros Hreach Hflag Hoff.
  destruct (next_flag_stream _ _ Hflag) as [rest Hs].
  assert (wkb_band endian hd k st = SysExit offline_msg) as Hband
    by (by apply (wkb_band_offline endian hd k st flag rest)).
  assert (wkb_to_numpy (Some payload) = SysExit offline_msg) as Hdec
    by (by rewrite (decoder_reaches_at_band _ _ _ _ _ Hreach), Hband).
  repeat split; [done..|].
  intros a e pre tile post w w' Ha Hrun Hq.
  by apply (postgis_run_exit _ _ _ _ _ a e pre tile post payload).
Qed.

(** C6, as amended.  Whenever the decoder gets to a band after band 0
    whose flag byte has bit 7 clear and a pixel-type code between 0 and 10
    that is not the code of band 0, that turn of the loop and the decoder
    leave through [sys.exit] with the mixed-type message, and a PostGIS run
    that gets to a tile with such a payload ends there with that exit. *)
Theorem mixed_band_exits payload endian hd k st flag0 flag :
  decoder_reaches payload endian hd k st →
  (1 ≤ k)%nat →
  band0_flag payload = Some flag0 →
  next_flag st = Some flag →
  band_offline flag = false →
  pixel_code flag ≤ 10 →
  pixel_code flag ≠ pixel_code flag0 →
  wkb_band endian hd k st = SysExit mixed_msg
  ∧ wkb_to_numpy (Some payload) = SysExit mixed_msg
  ∧ ∀ (a : args) (e : env coord) pre tile post w w',
      postgis_only a →
      postgis_run_reaches a e w pre tile post w' →
      e_pg_query e tile = PgRow (Some payload) →
      main burn warp_transform xy_bounds from_bounds rasterize a e w
        = (SysExit mixed_msg, w').
Proof.
  intros Hreach Hk Hflag0 Hflag Hoff Hcode Hne.
  destruct (next_flag_stream _ _ Hflag) as [rest Hs].
  destruct (decoder_reaches_band0 _ _ _ _ _ _ Hreach Hflag0) as [s Hpre].
  pose proof (wkb_bands_pixtype _ _ _ _ _ _ Hk Hpre) as Hpix.
  assert (wkb_band endian hd k st = SysExit mixed_msg) as Hband.
  { apply (wkb_band_mixed endian hd k st flag rest (pixel_code flag0));
      auto; lia. }
  assert (wkb_to_numpy (Some payload) = SysExit mixed_msg) as Hdec
    by (by rewrite (decoder_reaches_at_band _ _ _ _ _ Hreach), Hband).
  repeat split; [done..|].
  intros a e pre tile post w w' Ha Hrun Hq.
  by apply (postgis_run_exit _ _ _ _ _ a e pre tile post payload).
Qed.

End DecoderInRun.

(** C10, as amended.  The two tables have 11 entries and a pixel-type
    code ranges over 0..15.  Whenever the decoder gets to a band whose flag
    byte has bit 7 clear and a code of 11 or more, the lookup in the size
    table raises [IndexError], and so does the decoder: it neither returns
    nor leaves through [sys.exit]. *)
Theorem pixtype_out_of_table_raises payload endian hd k st flag :
  decoder_reaches payload endian hd k st →
  next_flag st = Some flag →
  band_offline flag = false →
  11 ≤ pixel_code flag →
  (length size_table = 11%nat ∧ length dtype_table = 11%nat
   ∧ pixel_code flag ≤ 15)
  ∧ getitem size_table (pixel_code flag) = Raise IndexError
  ∧ wkb_band endian hd k st = Raise IndexError
  ∧ wkb_to_numpy (Some payload) = Raise IndexError.
Proof.
  intros Hreach Hflag Hoff Hcode.
  destruct (next_flag_stream _ _ Hflag) as [rest Hs].
  assert (wkb_band endian hd k st = Raise IndexError) as Hband
    by (by apply (wkb_band_out_of_table endian hd k st flag rest)).
  repeat split; try done.
  - apply pixel_code_range.
  - by apply getitem_out_of_range.
  - by rewrite (decoder_reaches_at_band _ _ _ _ _ Hreach), Hband.
Qed.

(** ** The decoder's properties on example payloads *)

Lemma offline_band_exits_witness :
  wkb_to_numpy (Some (two_band_payload x84)) = SysExit offline_msg
  ∧ example_main [] postgis_args
      (postgis_env (PgRow (Some (two_band_payload x84)))) world0
    = (SysExit offline_msg, connected world0).
Proof.
  eassert (decoder_reaches (two_band_payload x84) LittleEndian _ 1 _) as Hreach.
  { do 2 eexists. split; [reflexivity|]. split; [reflexivity|].
    split; [vm_compute; lia|reflexivity]. }
  destruct (offline_band_exits (burn_at []) warp_id (λ _, tt) (λ _ _ _, tt)
              rasterize_count _ _ _ _ _ x84 Hreach eq_refl eq_refl)
    as (_ & Hdec & Hrun).
  split; [exact Hdec|].
  apply (Hrun postgis_args _ [] (0, 0, 1) []).
  - split; reflexivity.
  - split; [reflexivity|]. split; [by eexists|]. split; reflexivity.
  - reflexivity.
Defined.

(** C6 fails as stated on two payloads whose second band has another code
    than the first (4).  With code 12 the decoder raises [IndexError]; the
    run catches it, logs a warning, writes the blank raster and goes on.
    With bit 7 set as well (flag 133, code 5), the exit is the out-of-line
    one. *)
Lemma mixed_band_counterexample :
  band0_flag (two_band_payload x0c) = Some x04
  ∧ pixel_code x0c ≠ pixel_code x04
  ∧ wkb_to_numpy (Some (two_band_payload x0c)) = Raise IndexError
  ∧ example_main [] postgis_args
      (postgis_env (PgRow (Some (two_band_payload x0c)))) world0
    = (Ok tt,
       wrote (0, 0, 1) (zeros2 2 2 float64)
         (connected (logged (WarnInvalidGeometries (0, 0, 1))
                       (connected world0))))
  ∧ band0_flag (two_band_payload x85) = Some x04
  ∧ pixel_code x85 ≠ pixel_code x04
  ∧ wkb_to_numpy (Some (two_band_payload x85)) = SysExit offline_msg
  ∧ offline_msg ≠ mixed_msg.
Proof. repeat split; try (vm_compute; reflexivity); discriminate. Qed.

Lemma mixed_band_exits_witness :
  wkb_to_numpy (Some (two_band_payload x05)) = SysExit mixed_msg
  ∧ example_main [] postgis_args
      (postgis_env (PgRow (Some (two_band_payload x05)))) world0
    = (SysExit mixed_msg, connected world0).
Proof.
  eassert (decoder_reaches (two_band_payload x05) LittleEndian _ 1 _) as Hreach.
  { do 2 eexists. split; [reflexivity|]. split; [reflexivity|].
    split; [vm_compute; lia|reflexivity]. }
  assert (pixel_code x05 ≤ 10) as Hcode by (vm_compute; discriminate).
  assert (pixel_code x05 ≠ pixel_code x04) as Hne by (vm_compute; discriminate).
  destruct (mixed_band_exits (burn_at []) warp_id (λ _, tt) (λ _ _ _, tt)
              rasterize_count _ _ _ _ _ x04 x05 Hreach (le_n 1) eq_refl eq_refl
              eq_refl Hcode Hne) as (_ & Hdec & Hrun).
  split; [exact Hdec|].
  apply (Hrun postgis_args _ [] (0, 0, 1) []).
  - split; reflexivity.
  - split; [reflexivity|]. split; [by eexists|]. split; reflexivity.
  - reflexivity.
Defined.

(** C10 fails as stated on a band whose flag byte has code 11 and bit 7
    set (139): the out-of-line test comes first and the decoder leaves
    through [sys.exit]. *)
Lemma pixtype_out_of_table_counterexample :
  pixel_code x8b = 11
  ∧ wkb_to_numpy (Some (one_band_payload x8b)) = SysExit offline_msg.
Proof. split; vm_compute; reflexivity. Qed.

Lemma pixtype_out_of_table_raises_witness :
  wkb_to_numpy (Some (two_band_payload x0f)) = Raise IndexError.
Proof.
  eassert (decoder_reaches (two_band_payload x0f) LittleEndian _ 1 _) as Hreach.
  { do 2 eexists. split; [reflexivity|]. split; [reflexivity|].
    split; [vm_compute; lia|reflexivity]. }
  assert (11 ≤ pixel_code x0f) as Hcode by (vm_compute; discriminate).
  destruct (pixtype_out_of_table_raises _ _ _ _ _ x0f Hreach eq_refl eq_refl
              Hcode) as (_ & _ & _ & Hdec).
  exact Hdec.
Defined.

(** ** The two loops over the cover *)

Lemma all_zero_zeros2 rows cols d : all_zero (zeros2 rows cols d).
Proof. by apply Forall_replicate. Qed.

Section CoverLoops.
Context {coord bounds affine : Type}.
Variable burn : polygon coord → option Z → outcome (list Tile).
Variable warp_transform : string → list (list coord) → outcome (list (list coord)).
Variable xy_bounds : Tile → bounds.
Variable from_bounds : bounds → Z → Z → affine.
Variable rasterize : list (polygon coord * Z) → Z * Z → affine → outcome ndarray2.
Variable a : args.
Variable e : env coord.

Local Abbreviation main' :=
  (main burn warp_transform xy_bounds from_bounds rasterize a e).
Local Abbreviation geojson_tile' :=
  (geojson_tile warp_transform xy_bounds from_bounds rasterize a e).

Lemma tile_size_nonneg : 0 ≤ tile_size a e.
Proof. unfold tile_size. lia. Qed.

Lemma main_geojson_only w :
  geojson_only a →
  main' w =
    main_geojson burn warp_transform xy_bounds from_bounds rasterize a e w.
Proof.
  intros [Hg Hp]. unfold main. rewrite Hg, Hp. simpl.
  unfold mbind, run_bind, Run.bind.
  by destruct (main_geojson _ _ _ _ _ a e w) as [[[]| |] w'].
Qed.

Lemma zoom_mismatch tile :
  tile ∈ e_cover e → a_zoom a ≠ Some (tile_z tile) →
  forallb (zoom_matches a) (e_cover e) = false.
Proof.
  intros Hin Hz. apply not_true_is_false. intros Hall.
  rewrite forallb_forall in Hall.
  specialize (Hall tile (proj1 (list_elem_of_In _ _) Hin)).
  unfold zoom_matches in Hall.
  destruct (a_zoom a) as [zoom|]; [|done].
  apply Z.eqb_eq in Hall. congruence.
Qed.

Lemma postgis_tile_no_row tile w :
  e_pg_query e tile = PgNoRow →
  postgis_tile a e tile w =
    (Ok tt, wrote tile (zeros2 (tile_size a e) (tile_size a e) float64) w).
Proof.
  intros Hq. unfold postgis_tile.
  unfold mbind, run_bind, Run.bind, try_except.
  by rewrite Hq.
Qed.

Lemma geojson_tile_no_entry feature_map epsg tile w :
  feature_map !! tile = None →
  geojson_tile' feature_map epsg tile w =
    (Ok tt, wrote tile (zeros2 (tile_size a e) (tile_size a e) uint8) w).
Proof.
  intros Hfm. unfold geojson_tile.
  unfold mbind, run_bind, Run.bind.
  by rewrite Hfm.
Qed.

Lemma geojson_run_at_tile w feature_map epsg pre tile post w' :
  geojson_only a →
  geojson_run_reaches burn warp_transform xy_bounds from_bounds rasterize
    a e w feature_map epsg pre tile post w' →
  main' w = for_fold (tile :: post) (λ _ t, geojson_tile' feature_map epsg t) tt w'.
Proof.
  intros Ha (Hzoom & Hcover & w1 & Hindex & Hpre).
  rewrite main_geojson_only by done. unfold main_geojson.
  rewrite Hzoom. simpl. unfold mbind at 1, run_bind, Run.bind.
  rewrite Hindex. by rewrite Hcover, for_fold_app, Hpre.
Qed.

Lemma postgis_run_at_tile w pre tile post w' :
  postgis_only a →
  postgis_run_reaches a e w pre tile post w' →
  main' w = for_fold (tile :: post) (λ _ t, postgis_tile a e t) tt w'.
Proof.
  intros Ha (Hr & Hs & Hcover & Hpre).
  rewrite main_postgis_only, main_postgis_cover by done.
  by rewrite Hcover, for_fold_app, Hpre.
Qed.

(** ** The properties of the run *)

(** C3, as amended.  When the PostGIS run gets to a tile whose query
    gives no row, it writes the all-zero raster of [tile_size] rows and
    columns for the tile, logs nothing and opens no connection, and goes
    on with the tiles that follow. *)
Theorem empty_result_writes_blank w pre tile post w' :
  postgis_only a →
  postgis_run_reaches a e w pre tile post w' →
  e_pg_query e tile = PgNoRow →
  let blank := zeros2 (tile_size a e) (tile_size a e) float64 in
  postgis_tile a e tile w' = (Ok tt, wrote tile blank w')
  ∧ w_log (wrote tile blank w') = w_log w'
  ∧ all_zero blank
  ∧ a2_rows blank = tile_size a e ∧ a2_cols blank = tile_size a e
  ∧ main' w = for_fold post (λ _ t, postgis_tile a e t) tt (wrote tile blank w').
Proof.
  intros Ha Hrun Hq blank.
  pose proof (postgis_tile_no_row tile w' Hq) as Hstep.
  repeat split; try done.
  - apply all_zero_zeros2.
  - rewrite (postgis_run_at_tile w pre tile post w') by done.
    simpl. unfold mbind, run_bind, Run.bind. by rewrite Hstep.
Qed.

(** C7.  On the GeoJSON path, a cover tile whose zoom level is not the
    configured one makes the run leave through [sys.exit] in the world it
    started in: nothing is logged, nothing is written, whatever the
    features and the geometry primitives are. *)
Theorem zoom_mismatch_exits w tile :
  geojson_only a →
  tile ∈ e_cover e →
  a_zoom a ≠ Some (tile_z tile) →
  main' w = (SysExit zoom_msg, w).
Proof.
  intros Ha Hin Hz.
  rewrite main_geojson_only by done. unfold main_geojson.
  by rewrite (zoom_mismatch tile).
Qed.

(** C8.  When the GeoJSON run gets to a cover tile that has no entry in
    the feature map, it writes for it a raster of 8-bit unsigned elements,
    [tile_size] rows and columns, [tile_size * tile_size] elements, all
    zero, and goes on with the tiles that follow. *)
Theorem featureless_tile_blank w feature_map epsg pre tile post w' :
  geojson_only a →
  geojson_run_reaches burn warp_transform xy_bounds from_bounds rasterize
    a e w feature_map epsg pre tile post w' →
  feature_map !! tile = None →
  let blank := zeros2 (tile_size a e) (tile_size a e) uint8 in
  geojson_tile' feature_map epsg tile w' = (Ok tt, wrote tile blank w')
  ∧ a2_dtype blank = uint8
  ∧ a2_rows blank = tile_size a e ∧ a2_cols blank = tile_size a e
  ∧ Z.of_nat (length (a2_data blank)) = tile_size a e * tile_size a e
  ∧ all_zero blank
  ∧ main' w =
      for_fold post (λ _ t, geojson_tile' feature_map epsg t) tt
        (wrote tile blank w').
Proof.
  intros Ha Hrun Hfm blank.
  pose proof (geojson_tile_no_entry feature_map epsg tile w' Hfm) as Hstep.
  pose proof tile_size_nonneg.
  repeat split; try done.
  - simpl. unfold zero_bytes. rewrite length_replicate. simpl. nia.
  - apply all_zero_zeros2.
  - rewrite (geojson_run_at_tile w feature_map epsg pre tile post w') by done.
    simpl. unfold mbind, run_bind, Run.bind. by rewrite Hstep.
Qed.

End CoverLoops.

(** C2 (the code departs from it).  On the PostGIS path the raster given
    to [write_tile] for a tile whose query gives no row, or fails, is the
    [np.zeros((tile_size, tile_size))] of line 210, of element type
    float64; the GeoJSON path gives [uint8] zeros for a tile without
    features. *)
Theorem postgis_blank_raster_is_float64 :
  example_main [] postgis_args (postgis_env PgNoRow) world0
    = (Ok tt, wrote (0, 0, 1) (zeros2 2 2 float64) (connected world0))
  ∧ example_main [] postgis_args (postgis_env PgError) world0
    = (Ok tt,
       wrote (0, 0, 1) (zeros2 2 2 float64)
         (connected (logged (WarnInvalidGeometries (0, 0, 1))
                       (connected world0))))
  ∧ a2_dtype (zeros2 2 2 float64) ≠ uint8
  ∧ example_main [] (geojson_args 1) (geojson_env [(0, 0, 1)] []) world0
    = (Ok tt, wrote (0, 0, 1) (zeros2 2 2 uint8) world0).
Proof. repeat split; try (vm_compute; reflexivity); discriminate. Qed.

(** C3 fails as stated: on a query that gives no row the run writes the
    blank raster and logs nothing. *)
Lemma empty_result_counterexample :
  e_pg_query (postgis_env PgNoRow) (0, 0, 1) = PgNoRow
  ∧ example_main [] postgis_args (postgis_env PgNoRow) world0
    = (Ok tt, wrote (0, 0, 1) (zeros2 2 2 float64) (connected world0))
  ∧ w_log (wrote (0, 0, 1) (zeros2 2 2 float64) (connected world0)) = [].
Proof. repeat split. Qed.

(** ** Runs that differ by their logs only *)

Lemma same_output_refl w : same_output w w.
Proof. by split. Qed.

Lemma same_result_bind {A B} (m1 m2 : run A) (f1 f2 : A → run B) w1 w2 :
  same_result (m1 w1) (m2 w2) →
  (∀ x w1' w2', same_output w1' w2' → same_result (f1 x w1') (f2 x w2')) →
  same_result ((m1 ≫= f1) w1) ((m2 ≫= f2) w2).
Proof.
  unfold mbind, run_bind, Run.bind. intros [Ho Hw] Hf.
  destruct (m1 w1) as [o1 w1'], (m2 w2) as [o2 w2']; simpl in *; subst o2.
  destruct o1; [by apply Hf|by split..].
Qed.

Lemma same_result_for_fold {A1 A2 S} (R : A1 → A2 → Prop)
    (body1 : S → A1 → run S) (body2 : S → A2 → run S) xs ys :
  Forall2 R xs ys →
  (∀ acc x y w1 w2, R x y → same_output w1 w2 →
     same_result (body1 acc x w1) (body2 acc y w2)) →
  ∀ acc w1 w2, same_output w1 w2 →
    same_result (for_fold xs body1 acc w1) (for_fold ys body2 acc w2).
Proof.
  intros HR Hbody. induction HR as [|x y xs ys Hxy _ IH]; intros acc w1 w2 Hw.
  { by split. }
  simpl. apply same_result_bind; auto.
Qed.

Lemma same_result_for_fold_app {A1 A2 S}
    (body1 : S → A1 → run S) (body2 : S → A2 → run S) xs1 ys1 xs2 ys2 :
  (∀ acc w1 w2, same_output w1 w2 →
     same_result (for_fold xs1 body1 acc w1) (for_fold xs2 body2 acc w2)) →
  (∀ acc w1 w2, same_output w1 w2 →
     same_result (for_fold ys1 body1 acc w1) (for_fold ys2 body2 acc w2)) →
  ∀ acc w1 w2, same_output w1 w2 →
    same_result (for_fold (xs1 ++ ys1) body1 acc w1)
                (for_fold (xs2 ++ ys2) body2 acc w2).
Proof.
  intros Hxs Hys acc w1 w2 Hw. rewrite !for_fold_app.
  destruct (Hxs acc w1 w2 Hw) as [Ho Hw'].
  destruct (for_fold xs1 body1 acc w1) as [o1 w1'],
           (for_fold xs2 body2 acc w2) as [o2 w2']; simpl in *; subst o2.
  destruct o1; [by apply Hys|by split..].
Qed.

Lemma Forall2_eq_refl {A} (l : list A) : Forall2 eq l l.
Proof. induction l; by constructor. Qed.

Lemma for_fold_one {A S} (body : S → A → run S) x acc w :
  for_fold [x] body acc w = body acc x w.
Proof.
  simpl. unfold mbind, run_bind, Run.bind.
  by destruct (body acc x w) as [[]].
Qed.

Lemma imap_pair_snd {A B} (f : nat → B) (xs : list A) :
  (imap (λ i x, (f i, x)) xs).*2 = xs.
Proof.
  revert f. induction xs as [|x xs IH]; intros f; [done|].
  simpl. f_equal. apply (IH (f ∘ S)).
Qed.

Lemma enumerate_snd {A} (xs : list A) : (enumerate xs).*2 = xs.
Proof. apply imap_pair_snd. Qed.

Section SpatialIndex.
Context {coord : Type}.
Variable burn : polygon coord → option Z → outcome (list Tile).
Variable a : args.

Local Abbreviation parse_feature := (geojson_parse_feature burn a).

(** The feature index reaches the log and nothing else. *)
Lemma same_result_parse_polygon feature_map p i j w1 w2 :
  same_output w1 w2 →
  same_result (geojson_parse_polygon burn a feature_map p i w1)
              (geojson_parse_polygon burn a feature_map p j w2).
Proof.
  intros Hw. unfold geojson_parse_polygon, try_except.
  unfold mbind, run_bind, Run.bind, lift, log.
  destruct (map_outcome ring_2d p) as [p'| ex |]; simpl.
  - destruct (burn p' (a_zoom a)) as [tiles| ex |]; simpl; [by split| |by split].
    destruct (except_ValueError ex); by split.
  - destruct (except_ValueError ex); by split.
  - by split.
Qed.

Lemma same_result_parse_geometry feature_map g i j w1 w2 :
  same_output w1 w2 →
  same_result (geojson_parse_geometry burn a feature_map g i w1)
              (geojson_parse_geometry burn a feature_map g j w2).
Proof.
  intros Hw. destruct g as [p|ps|gs|ty]; simpl.
  - by apply same_result_parse_polygon.
  - apply (same_result_for_fold eq); [by apply Forall2_eq_refl| |done].
    intros acc x y w1' w2' <- Hw'. by apply same_result_parse_polygon.
  - by split.
  - by split.
Qed.

Lemma same_result_parse_feature feature_map g i j w1 w2 :
  same_output w1 w2 →
  same_result (parse_feature feature_map (i, g) w1)
              (parse_feature feature_map (j, g) w2).
Proof.
  intros Hw. unfold geojson_parse_feature.
  destruct g as [p|ps|gs|ty];
    try by apply same_result_parse_geometry.
  apply (same_result_for_fold eq); [by apply Forall2_eq_refl| |done].
  intros acc x y w1' w2' <- Hw'. by apply same_result_parse_geometry.
Qed.

Lemma same_result_features l1 l2 :
  l1.*2 = l2.*2 →
  ∀ feature_map w1 w2, same_output w1 w2 →
    same_result (for_fold l1 parse_feature feature_map w1)
                (for_fold l2 parse_feature feature_map w2).
Proof.
  intros Hl. apply (same_result_for_fold (λ x y, x.2 = y.2)).
  - revert l2 Hl. induction l1 as [|x l1 IH]; intros [|y l2] Hl; try done.
    injection Hl as Hxy Hl. constructor; auto.
  - intros acc [i g] [j g'] w1 w2 Hg Hw. simpl in Hg. subst g'.
    by apply same_result_parse_feature.
Qed.

(** A MultiPolygon feature against its members as Polygon features. *)
Lemma same_result_multipolygon members i l2 :
  l2.*2 = Polygon <$> members →
  ∀ feature_map w1 w2, same_output w1 w2 →
    same_result (parse_feature feature_map (i, MultiPolygon members) w1)
                (for_fold l2 parse_feature feature_map w2).
Proof.
  intros Hl. simpl.
  apply (same_result_for_fold (λ p y, y.2 = Polygon p)).
  - revert l2 Hl. induction members as [|p ps IH]; intros [|y l2] Hl; try done.
    injection Hl as Hy Hl. constructor; auto.
  - intros acc p [j g] w1 w2 Hg Hw. simpl in Hg. subst g.
    by apply same_result_parse_polygon.
Qed.

Lemma same_result_features_expanded l1 l2 :
  expands_multipolygon (l1.*2) (l2.*2) →
  ∀ feature_map w1 w2, same_output w1 w2 →
    same_result (for_fold l1 parse_feature feature_map w1)
                (for_fold l2 parse_feature feature_map w2).
Proof.
  intros (pre & members & post & H1 & H2).
  apply fmap_app_inv in H1 as (l1a & l1b & Ha1 & Hb1 & ->).
  symmetry in Hb1.
  apply fmap_cons_inv in Hb1 as ([i g] & l1c & Hg & Hc1 & ->).
  simpl in Hg. subst g.
  apply fmap_app_inv in H2 as (l2a & l2bc & Ha2 & Hbc2 & ->).
  symmetry in Hbc2.
  apply fmap_app_inv in Hbc2 as (l2b & l2c & Hb2 & Hc2 & ->).
  apply same_result_for_fold_app.
  { apply same_result_features. congruence. }
  change ((i, MultiPolygon members) :: l1c)
    with ([(i, MultiPolygon members)] ++ l1c).
  apply same_result_for_fold_app.
  - intros acc w1 w2 Hw. rewrite for_fold_one.
    by apply same_result_multipolygon.
  - apply same_result_features. congruence.
Qed.

Variables e1 e2 : env coord.
Hypothesis collections :
  ∀ f, same_or_expanded (e_fiona_open e1 f) (e_fiona_open e2 f).

Lemma same_result_parse_file acc f w1 w2 :
  same_output w1 w2 →
  same_result (geojson_parse_file burn a e1 acc f w1)
              (geojson_parse_file burn a e2 acc f w2).
Proof.
  intros Hw. unfold geojson_parse_file.
  destruct (collections f) as [Hepsg Hfeatures].
  apply same_result_bind.
  - destruct Hfeatures as [Heq|Hexp].
    + apply same_result_features; [|done]. by rewrite !enumerate_snd.
    + apply same_result_features_expanded; [|done]. by rewrite !enumerate_snd.
  - intros fm w1' w2' Hw'. rewrite Hepsg. by split.
Qed.

Lemma same_result_spatial_index w1 w2 :
  same_output w1 w2 →
  same_result (geojson_spatial_index burn a e1 w1)
              (geojson_spatial_index burn a e2 w2).
Proof.
  intros Hw. unfold geojson_spatial_index.
  apply (same_result_for_fold eq); [by apply Forall2_eq_refl| |done].
  intros acc f ? w1' w2' <- Hw'. by apply same_result_parse_file.
Qed.

End SpatialIndex.

Section Multipolygon.
Context {coord bounds affine : Type}.
Variable burn : polygon coord → option Z → outcome (list Tile).
Variable warp_transform : string → list (list coord) → outcome (list (list coord)).
Variable xy_bounds : Tile → bounds.
Variable from_bounds : bounds → Z → Z → affine.
Variable rasterize : list (polygon coord * Z) → Z * Z → affine → outcome ndarray2.
Variable a : args.
Variables e1 e2 : env coord.

Local Abbreviation main' :=
  (main burn warp_transform xy_bounds from_bounds rasterize a).
Local Abbreviation geojson_tile' :=
  (geojson_tile warp_transform xy_bounds from_bounds rasterize a).

Lemma same_result_geojson_tile feature_map epsg tile w1 w2 :
  e_config_tile_size e1 = e_config_tile_size e2 →
  same_output w1 w2 →
  same_result (geojson_tile' e1 feature_map epsg tile w1)
              (geojson_tile' e2 feature_map epsg tile w2).
Proof.
  intros Hsize [Hwritten Hconn].
  assert (tile_size a e2 = tile_size a e1) as Htile
    by (unfold tile_size; by rewrite Hsize).
  unfold geojson_tile, mbind, run_bind, Run.bind, lift, write_tile.
  rewrite Htile.
  destruct (feature_map !! tile) as [features|]; simpl.
  - destruct (geojson_tile_burn _ _ _ _ tile features _ _ epsg);
      simpl; repeat split; simpl; congruence.
  - repeat split; simpl; congruence.
Qed.

(** C9.  Take two GeoJSON runs on the same cover and tile size whose
    files hold the same features, except that where a file of the first
    has a MultiPolygon a file of the second may have its members as
    Polygon features in its place.  The spatial index gives both runs the
    same feature map, the runs end alike, and they hand the same rasters
    for the same tiles, in the same order, to [write_tile]. *)
Theorem multipolygon_as_polygons w :
  geojson_only a →
  e_config_tile_size e1 = e_config_tile_size e2 →
  e_cover e1 = e_cover e2 →
  (∀ f, same_or_expanded (e_fiona_open e1 f) (e_fiona_open e2 f)) →
  (geojson_spatial_index burn a e1 w).1 = (geojson_spatial_index burn a e2 w).1
  ∧ (main' e1 w).1 = (main' e2 w).1
  ∧ w_written (main' e1 w).2 = w_written (main' e2 w).2.
Proof.
  intros Ha Hsize Hcover Hfiles.
  pose proof (same_result_spatial_index burn a e1 e2 Hfiles) as Hindex.
  split; [by apply Hindex, same_output_refl|].
  cut (same_result (main' e1 w) (main' e2 w)).
  { intros (Ho & Hw & _). by split. }
  rewrite !main_geojson_only by done. unfold main_geojson.
  rewrite <- Hcover.
  destruct (negb _); [by split|].
  apply same_result_bind; [by apply Hindex, same_output_refl|].
  intros [feature_map epsg] w1 w2 Hw.
  apply (same_result_for_fold eq); [by apply Forall2_eq_refl| |done].
  intros [] tile ? w1' w2' <- Hw'. by apply same_result_geojson_tile.
Qed.

End Multipolygon.

(** ** The properties of the run on example runs *)

Lemma empty_result_writes_blank_witness :
  example_main [] postgis_args (postgis_env PgNoRow) world0
    = (Ok tt, wrote (0, 0, 1) (zeros2 2 2 float64) (connected world0)).
Proof.
  destruct (empty_result_writes_blank (burn_at []) warp_id (λ _, tt)
              (λ _ _ _, tt) rasterize_count postgis_args (postgis_env PgNoRow)
              world0 [] (0, 0, 1) [] (connected world0))
    as (_ & _ & _ & _ & _ & Hrun).
  - split; reflexivity.
  - split; [reflexivity|]. split; [by eexists|]. split; reflexivity.
  - reflexivity.
  - exact Hrun.
Defined.

(** A cover of one tile at zoom 10 against features declared at zoom 9. *)
Lemma zoom_mismatch_exits_witness :
  example_main [(0, 0, 9)] (geojson_args 9)
      (geojson_env [(3, 5, 10)] [Polygon (square 0 0)]) world0
    = (SysExit zoom_msg, world0).
Proof.
  apply (zoom_mismatch_exits (burn_at [(0, 0, 9)]) warp_id (λ _, tt)
           (λ _ _ _, tt) rasterize_count (geojson_args 9)
           (geojson_env [(3, 5, 10)] [Polygon (square 0 0)]) world0 (3, 5, 10)).
  - split; reflexivity.
  - apply list_elem_of_here.
  - discriminate.
Defined.

(** One polygon burnt on tile (1, 1, 1); the cover asks for (0, 0, 1)
    first. *)
Lemma featureless_tile_blank_witness :
  example_main [(1, 1, 1)] (geojson_args 1)
      (geojson_env [(0, 0, 1); (1, 1, 1)] [Polygon (square 0 0)]) world0
    = for_fold [(1, 1, 1)]
        (λ _ t, geojson_tile warp_id (λ _, tt) (λ _ _ _, tt) rasterize_count
                  (geojson_args 1)
                  (geojson_env [(0, 0, 1); (1, 1, 1)] [Polygon (square 0 0)])
                  {[ (1, 1, 1) := [square 0 0] ]} "4326" t) tt
        (wrote (0, 0, 1) (zeros2 2 2 uint8) world0).
Proof.
  destruct (featureless_tile_blank (burn_at [(1, 1, 1)]) warp_id (λ _, tt)
              (λ _ _ _, tt) rasterize_count (geojson_args 1)
              (geojson_env [(0, 0, 1); (1, 1, 1)] [Polygon (square 0 0)])
              world0 {[ (1, 1, 1) := [square 0 0] ]} "4326"
              [] (0, 0, 1) [(1, 1, 1)] world0)
    as (_ & _ & _ & _ & _ & _ & Hrun).
  - split; reflexivity.
  - split; [reflexivity|]. split; [reflexivity|].
    exists world0. split; [|reflexivity].
    vm_compute. reflexivity.
  - vm_compute. reflexivity.
  - exact Hrun.
Defined.

Lemma multipolygon_as_polygons_witness :
  (example_main [(0, 0, 1)] (geojson_args 1)
     (geojson_env [(0, 0, 1)] [MultiPolygon [square 0 0; square 2 2]]) world0).1
  = (example_main [(0, 0, 1)] (geojson_args 1)
       (geojson_env [(0, 0, 1)] [Polygon (square 0 0); Polygon (square 2 2)])
       world0).1
  ∧ w_written
      (example_main [(0, 0, 1)] (geojson_args 1)
         (geojson_env [(0, 0, 1)] [MultiPolygon [square 0 0; square 2 2]])
         world0).2
    = w_written
        (example_main [(0, 0, 1)] (geojson_args 1)
           (geojson_env [(0, 0, 1)] [Polygon (square 0 0); Polygon (square 2 2)])
           world0).2.
Proof.
  destruct (multipolygon_as_polygons (burn_at [(0, 0, 1)]) warp_id (λ _, tt)
              (λ _ _ _, tt) rasterize_count (geojson_args 1)
              (geojson_env [(0, 0, 1)] [MultiPolygon [square 0 0; square 2 2]])
              (geojson_env [(0, 0, 1)] [Polygon (square 0 0); Polygon (square 2 2)])
              world0) as (_ & Ho & Hw).
  - split; reflexivity.
  - reflexivity.
  - reflexivity.
  - intros f. split; [reflexivity|]. right.
    by exists [], [square 0 0; square 2 2], [].
  - split; [exact Ho|exact Hw].
Defined.

Example multipolygon_example_run :
  example_main [(0, 0, 1)] (geojson_args 1)
    (geojson_env [(0, 0, 1)] [MultiPolygon [square 0 0; square 2 2]]) world0
  = (Ok tt, wrote (0, 0, 1) (Array2 uint8 2 2 [x02; x02; x02; x02]) world0).
Proof. vm_compute. reflexivity. Qed.

(** * Further properties of the decoder *)

(** The no-data value of a pixel type is as wide as its elements. *)
Lemma size_table_itemsize flag size dtype :
  getitem size_table (pixel_code flag) = Ok size →
  getitem dtype_table (pixel_code flag) = Ok dtype →
  itemsize dtype = size.
Proof.
  destruct flag; vm_compute; intros Hs Hd;
    try discriminate; by injection Hs as <-; injection Hd as <-.
Qed.

Lemma flag_bits_endian flag :
  flag_bits BigEndian flag = flag_bits LittleEndian flag.
Proof. by destruct flag. Qed.

Lemma wkb_band_endian hd band st :
  wkb_band BigEndian hd band st = wkb_band LittleEndian hd band st.
Proof.
  destruct st as [out pix [|flag rest]]; [reflexivity|].
  rewrite !wkb_band_flag. cbv zeta. by rewrite flag_bits_endian.
Qed.

(** Once the header is read, the byte order plays no part: the flag bytes
    are single bytes and the pixel bytes are kept as they are read. *)
Theorem wkb_bands_endian_irrelevant hd todo st :
  wkb_bands BigEndian hd todo st = wkb_bands LittleEndian hd todo st.
Proof.
  revert st. induction todo as [|band todo IH]; intros st; [reflexivity|].
  simpl. rewrite wkb_band_endian.
  destruct (wkb_band LittleEndian hd band st); simpl; auto.
Qed.

(** ** Streams too short for the header *)

Lemma read_endian_cons flag s :
  read_endian (flag :: s) = Ok (LittleEndian, s).
Proof. reflexivity. Qed.

Lemma unpack_wrong_size endian fs bs :
  length bs ≠ calcsize fs → unpack endian fs bs = Raise StructError.
Proof. intros Hne. unfold unpack. by rewrite decide_False. Qed.

Lemma read_header_short endian s :
  (length s < 60)%nat → read_header endian s = Raise StructError.
Proof.
  intros Hs. unfold read_header, read.
  rewrite unpack_wrong_size; [done|].
  rewrite length_take. change (calcsize header_fmt) with 60%nat.
  change (Z.to_nat 60) with 60%nat. lia.
Qed.

(** Fewer than 61 bytes. *)
Lemma short_stream_struct_error s :
  (length s < 61)%nat → wkb_to_numpy (Some s) = Raise StructError.
Proof.
  intros Hs. destruct s as [|flag s]; [reflexivity|].
  unfold wkb_to_numpy. rewrite read_endian_cons. simpl.
  rewrite read_header_short; [done|]. simpl in Hs. lia.
Qed.

(** A stream of fewer than 61 bytes, the empty one included, makes the
    decoder raise [struct.error]. *)
Theorem wkb_to_numpy_short_stream s :
  (length s < 61)%nat → wkb_to_numpy (Some s) = Raise StructError.
Proof. apply short_stream_struct_error. Qed.

(** ** The header fields *)

Lemma byte_val_range b : 0 ≤ byte_val b < 256.
Proof.
  unfold byte_val. pose proof (Byte.to_N_bounded b). lia.
Qed.

Lemma le_uint_range bs : 0 ≤ le_uint bs < 256 ^ Z.of_nat (length bs).
Proof.
  induction bs as [|b bs IH]; simpl length; [simpl; lia|].
  cbn [le_uint]. pose proof (byte_val_range b).
  rewrite Nat2Z.inj_succ, Z.pow_succ_r by lia. lia.
Qed.

Lemma uint_range endian bs : 0 ≤ uint endian bs < 256 ^ Z.of_nat (length bs).
Proof.
  destruct endian; simpl; [|apply le_uint_range].
  unfold be_uint. rewrite <- (length_rev bs). apply le_uint_range.
Qed.

Lemma uint16_range endian bs : 0 ≤ uint endian (take 2 bs) < 65536.
Proof.
  pose proof (uint_range endian (take 2 bs)) as Hr.
  pose proof (length_take bs 2) as Hl.
  assert (256 ^ Z.of_nat (length (take 2 bs)) ≤ 256 ^ 2)
    by (apply Z.pow_le_mono_r; lia).
  change (256 ^ 2) with 65536 in *. lia.
Qed.

(** Any 60 bytes make a header, in either byte order; the band count,
    the width and the height are below 65536, and the stream is left
    behind the 60 bytes. *)
Theorem read_header_total endian s :
  (60 ≤ length s)%nat →
  ∃ hd, read_header endian s = Ok (hd, drop 60 s)
        ∧ 0 ≤ h_bands hd < 65536
        ∧ 0 ≤ h_width hd < 65536
        ∧ 0 ≤ h_height hd < 65536.
Proof.
  intros Hs. unfold read_header, read, unpack.
  rewrite decide_True
    by (rewrite length_take; change (calcsize header_fmt) with 60%nat;
        change (Z.to_nat 60) with 60%nat; lia).
  cbn [header_fmt unpack_fields unpack1 calcsize1 mbind outcome_bind Py.bind].
  eexists. split; [reflexivity|]. cbn [h_bands h_width h_height].
  repeat split; apply uint16_range.
Qed.

(** ** Payloads that decode *)

Lemma read_app_length (n : Z) (l k : list byte) :
  length l = Z.to_nat n → read n (l ++ k) = (l, k).
Proof.
  intros Hl. unfold read.
  by rewrite take_app_length', drop_app_length'.
Qed.

Lemma ndarray_exact height width size dtype (plane : list byte) :
  itemsize dtype = size →
  length plane = Z.to_nat (width * height * size) →
  ndarray height width plane dtype = Ok (Array2 dtype height width plane).
Proof.
  intros <- Hl. unfold ndarray.
  replace (height * width * itemsize dtype)
    with (width * height * itemsize dtype) by ring.
  destruct (Z.ltb_spec (Z.of_nat (length plane))
              (width * height * itemsize dtype)); [lia|].
  by rewrite take_ge by lia.
Qed.

Lemma bands_bytes_cons b bs :
  bands_bytes (b :: bs) = band_bytes b ++ bands_bytes bs.
Proof. reflexivity. Qed.

(** One turn of the loop on a band that fits. *)
Lemma wkb_band_fits endian hd band code size dtype b rest out pix :
  getitem size_table code = Ok size →
  getitem dtype_table code = Ok dtype →
  band_fits hd code size b →
  wkb_band endian hd band (LoopState out pix (band_bytes b ++ rest)) =
    st1 ←
      (if decide (band = 0%nat)
       then mret (Some (zeros3 (h_height hd) (h_width hd) (h_bands hd) dtype),
                  Some code)
       else
         match pix with
         | None => Raise UnboundLocalError
         | Some pixtype =>
             if negb (pixtype =? code) then SysExit mixed_msg
             else mret (out, pix)
         end);
    match st1.1 with
    | None => Raise TypeError
    | Some o =>
        mret (LoopState
                (Some (set_band o band
                         (Array2 dtype (h_height hd) (h_width hd) (bs_pixels b))))
                st1.2 rest)
    end.
Proof.
  intros Hsize Hdtype (Hoff & Hcode & Hnodata & Hpixels).
  assert (itemsize dtype = size) as Hitem.
  { apply (size_table_itemsize (bs_flag b)); by rewrite Hcode. }
  unfold band_bytes. simpl app. rewrite wkb_band_flag. cbv zeta.
  rewrite flag_bits_offline, Hoff, flag_bits_code, Hcode, Hsize, Hdtype.
  cbn [negb mbind outcome_bind Py.bind].
  rewrite <- app_assoc, (read_app_length size) by done.
  destruct (decide (band = 0%nat)) as [_|_].
  - cbn [mret outcome_ret Py.bind fst snd].
    rewrite (read_app_length _ (bs_pixels b)) by done.
    by rewrite (ndarray_exact _ _ size).
  - destruct pix as [pixtype|]; [|done].
    destruct (negb (pixtype =? code)); [done|].
    cbn [mret outcome_ret Py.bind fst snd].
    rewrite (read_app_length _ (bs_pixels b)) by done.
    by rewrite (ndarray_exact _ _ size).
Qed.

(** The bands after band 0: the planes filled so far are [done], those to
    come still hold the zeros of the allocation. *)
Lemma wkb_bands_fit endian hd code size dtype bs :
  getitem size_table code = Ok size →
  getitem dtype_table code = Ok dtype →
  Forall (band_fits hd code size) bs →
  ∀ (done pending : list (list byte)) rest,
    done ≠ [] →
    length pending = length bs →
    wkb_bands endian hd (seq (length done) (length bs))
      (LoopState
         (Some (Array3 dtype (h_height hd) (h_width hd) (h_bands hd)
                  (done ++ pending)))
         (Some code) (bands_bytes bs ++ rest))
    = Ok (LoopState
            (Some (Array3 dtype (h_height hd) (h_width hd) (h_bands hd)
                     (done ++ (bs_pixels <$> bs))))
            (Some code) rest).
Proof.
  intros Hsize Hdtype Hfit.
  induction Hfit as [|b bs Hb _ IH]; intros done pending rest Hdone Hlen.
  { destruct pending; [|done]. reflexivity. }
  destruct pending as [|p pending]; [done|]. injection Hlen as Hlen.
  cbn [length seq wkb_bands fmap list_fmap].
  rewrite bands_bytes_cons, <- app_assoc.
  rewrite (wkb_band_fits _ _ _ code size dtype) by done.
  rewrite decide_False by (destruct done; simpl; [done|lia]).
  rewrite Z.eqb_refl.
  cbn [negb mret outcome_ret mbind outcome_bind Py.bind fst snd].
  unfold set_band. cbn [a3_dtype a3_height a3_width a3_bands a3_planes a2_data].
  rewrite insert_app_r_alt, Nat.sub_diag by lia. cbn [insert list_insert].
  specialize (IH (done ++ [bs_pixels b]) pending rest).
  rewrite length_app, Nat.add_1_r, <- !app_assoc in IH.
  apply IH; [by destruct done|done].
Qed.

(** The decoder on bands that fit. *)
Lemma fitting_bands_decode flag0 s hd code size dtype bs trailing :
  read_header LittleEndian s = Ok (hd, bands_bytes bs ++ trailing) →
  Z.to_nat (h_bands hd) = length bs →
  bs ≠ [] →
  getitem size_table code = Ok size →
  getitem dtype_table code = Ok dtype →
  Forall (band_fits hd code size) bs →
  wkb_to_numpy (Some (flag0 :: s))
    = Ok (Some (Array3 dtype (h_height hd) (h_width hd) (h_bands hd)
                  (bs_pixels <$> bs))).
Proof.
  intros Hh Hn Hbs Hsize Hdtype Hfit.
  unfold wkb_to_numpy. rewrite read_endian_cons.
  cbn [mbind outcome_bind Py.bind]. rewrite Hh.
  cbn [mbind outcome_bind Py.bind]. unfold range. rewrite Hn.
  destruct bs as [|b bs]; [done|]. clear Hbs.
  apply Forall_cons in Hfit as [Hb Hfit].
  cbn [length seq wkb_bands]. rewrite bands_bytes_cons, <- app_assoc.
  rewrite (wkb_band_fits _ _ _ code size dtype) by done.
  rewrite decide_True by done.
  cbn [mret outcome_ret mbind outcome_bind Py.bind fst snd].
  unfold set_band, zeros3.
  cbn [a3_dtype a3_height a3_width a3_bands a3_planes a2_data].
  rewrite Hn. cbn [length replicate insert list_insert].
  pose proof (wkb_bands_fit LittleEndian hd code size dtype bs Hsize Hdtype Hfit
                [bs_pixels b]
                (replicate (length bs)
                   (zero_bytes (h_height hd * h_width hd * itemsize dtype)))
                trailing) as Hrest.
  cbn [length app] in Hrest.
  rewrite Hrest; [reflexivity|done|by rewrite length_replicate].
Qed.

(** A payload whose bands all fit the header and share a pixel-type code
    of the table decodes to the array of their pixel bytes: element type
    of the code, shape of the header, one plane per band in order.  The
    endianness byte and the bytes behind the last band do not matter. *)
Theorem wkb_to_numpy_decodes flag0 s hd code size dtype bs trailing :
  read_header LittleEndian s = Ok (hd, bands_bytes bs ++ trailing) →
  Z.to_nat (h_bands hd) = length bs →
  bs ≠ [] →
  getitem size_table code = Ok size →
  getitem dtype_table code = Ok dtype →
  Forall (band_fits hd code size) bs →
  wkb_to_numpy (Some (flag0 :: s))
    = Ok (Some (Array3 dtype (h_height hd) (h_width hd) (h_bands hd)
                  (bs_pixels <$> bs))).
Proof. apply fitting_bands_decode. Qed.

(** ** The shape of what the decoder returns *)

Lemma ndarray_ok height width buf dtype arr :
  ndarray height width buf dtype = Ok arr →
  a2_dtype arr = dtype
  ∧ length (a2_data arr) = Z.to_nat (height * width * itemsize dtype).
Proof.
  unfold ndarray.
  destruct (Z.ltb_spec (Z.of_nat (length buf)) (height * width * itemsize dtype));
    [discriminate|].
  intros [= <-]. split; [done|]. simpl. rewrite length_take. lia.
Qed.

Lemma well_shaped_set_band hd o band arr :
  well_shaped hd o →
  a2_dtype arr = a3_dtype o →
  length (a2_data arr)
    = Z.to_nat (h_height hd * h_width hd * itemsize (a2_dtype arr)) →
  well_shaped hd (set_band o band arr).
Proof.
  intros (Hh & Hw & Hb & Hn & Hp) Hdtype Hlen.
  unfold well_shaped, set_band. simpl.
  repeat split; try done.
  - by rewrite length_insert.
  - apply Forall_insert; [done|]. by rewrite <- Hdtype.
Qed.

Lemma well_shaped_zeros3 hd dtype :
  well_shaped hd (zeros3 (h_height hd) (h_width hd) (h_bands hd) dtype).
Proof.
  unfold well_shaped, zeros3. simpl. repeat split.
  - by rewrite length_replicate.
  - apply Forall_replicate. unfold zero_bytes. by rewrite length_replicate.
Qed.

Lemma wkb_band_shape_kept endian hd band st st' :
  shape_kept hd st →
  wkb_band endian hd band st = Ok st' →
  shape_kept hd st'.
Proof.
  intros Hkept. destruct st as [out pix [|flag rest]].
  { by rewrite wkb_band_end_of_stream. }
  rewrite wkb_band_flag. cbv zeta. rewrite flag_bits_code.
  destruct (negb _); [discriminate|].
  destruct (getitem size_table _) as [size| |]; simpl; try discriminate.
  destruct (getitem dtype_table _) as [dtype| |] eqn:Hdtype;
    simpl; try discriminate.
  destruct (decide (band = 0%nat)) as [->|Hband]; simpl.
  - match goal with
    | |- context [ndarray ?h ?w ?b ?d] =>
        destruct (ndarray h w b d) as [arr| |] eqn:Harr
    end; simpl; try discriminate.
    apply ndarray_ok in Harr as [Hd Hl].
    intros [= <-] o [= <-]. split.
    + apply well_shaped_set_band; [apply well_shaped_zeros3|done|by rewrite Hd].
    + by exists (pixel_code flag).
  - destruct pix as [pixtype|]; [|discriminate].
    destruct (Z.eqb_spec pixtype (pixel_code flag)) as [->|]; [|discriminate].
    simpl.
    match goal with
    | |- context [ndarray ?h ?w ?b ?d] =>
        destruct (ndarray h w b d) as [arr| |] eqn:Harr
    end; simpl; try discriminate.
    apply ndarray_ok in Harr as [Hd Hl].
    destruct out as [o|]; [|discriminate].
    destruct (Hkept o eq_refl) as (Hshape & code & [= <-] & Hcode).
    assert (dtype = a3_dtype o) as Heq by congruence.
    intros [= <-] o' [= <-]. split.
    + apply well_shaped_set_band; [done|congruence|by rewrite Hd].
    + by exists (pixel_code flag).
Qed.

Lemma wkb_bands_end_of_stream endian hd todo st :
  todo ≠ [] → ls_stream st = [] →
  wkb_bands endian hd todo st = Raise StructError.
Proof.
  intros Htodo Hs. destruct todo as [|band todo]; [done|].
  simpl. by rewrite wkb_band_end_of_stream.
Qed.

Lemma wkb_bands_shape_kept endian hd todo st st' :
  shape_kept hd st →
  wkb_bands endian hd todo st = Ok st' →
  shape_kept hd st'.
Proof.
  revert st. induction todo as [|band todo IH]; intros st Hkept; simpl.
  { by intros [= <-]. }
  destruct (wkb_band endian hd band st) as [st1| |] eqn:Hst1;
    simpl; try discriminate.
  apply IH. by apply (wkb_band_shape_kept endian hd band st).
Qed.

(** Whatever the stream holds, an array that the decoder returns has the
    height, width and band count of the header, read little-endian behind
    the first byte; its element type is the table's entry for the code of
    band 0, it has one plane per band, and every plane has as many bytes
    as [height * width] elements take. *)
Theorem wkb_to_numpy_well_shaped s arr :
  wkb_to_numpy (Some s) = Ok (Some arr) →
  ∃ hd rest flag0,
    read_header LittleEndian (drop 1 s) = Ok (hd, rest)
    ∧ band0_flag s = Some flag0
    ∧ getitem dtype_table (pixel_code flag0) = Ok (a3_dtype arr)
    ∧ well_shaped hd arr.
Proof.
  destruct s as [|flag s]; [discriminate|].
  unfold wkb_to_numpy. rewrite read_endian_cons. simpl.
  destruct (read_header LittleEndian s) as [[hd s2]| |] eqn:Hh;
    simpl; try discriminate.
  destruct (wkb_bands _ hd _ _) as [st| |] eqn:Hloop; simpl; try discriminate.
  intros [= Hout].
  assert (shape_kept hd st) as Hkept.
  { apply (wkb_bands_shape_kept LittleEndian hd (range (h_bands hd))
             (loop_start s2) st); [by intros o|exact Hloop]. }
  destruct (Hkept arr Hout) as (Hshape & code & Hpix & Hcode).
  unfold range in Hloop.
  assert (1 ≤ Z.to_nat (h_bands hd))%nat as Hn.
  { destruct (Z.to_nat (h_bands hd)); [|lia].
    injection Hloop as <-. discriminate. }
  destruct s2 as [|flag0 s2].
  { rewrite wkb_bands_end_of_stream in Hloop; [done| |done].
    destruct (Z.to_nat (h_bands hd)); [lia|done]. }
  pose proof (wkb_bands_pixtype _ _ _ flag0 s2 st Hn Hloop) as Hpix0.
  exists hd, (flag0 :: s2), flag0.
  split; [done|]. split; [|split; [congruence|done]].
  pose proof (read_header_stream _ _ _ _ Hh) as Hs2.
  unfold band0_flag. simpl.
  rewrite <- (Nat.add_0_r 60), <- lookup_drop, <- Hs2. done.
Qed.

(** ** Payloads that stop early *)





(** A header that announces no band gives [None], whatever follows. *)
Theorem wkb_to_numpy_no_band flag0 s hd rest :
  read_header LittleEndian s = Ok (hd, rest) →
  h_bands hd = 0 →
  wkb_to_numpy (Some (flag0 :: s)) = Ok None.
Proof.
  intros Hh Hn. unfold wkb_to_numpy. rewrite read_endian_cons. simpl.
  rewrite Hh. simpl. by rewrite Hn.
Qed.

(** * Further properties of the PostGIS path *)

Section PostgisTiles.
Context {coord bounds affine : Type}.
Variable burn : polygon coord → option Z → outcome (list Tile).
Variable warp_transform : string → list (list coord) → outcome (list (list coord)).
Variable xy_bounds : Tile → bounds.
Variable from_bounds : bounds → Z → Z → affine.
Variable rasterize : list (polygon coord * Z) → Z * Z → affine → outcome ndarray2.
Variable a : args.
Variable e : env coord.

Local Abbreviation main' :=
  (main burn warp_transform xy_bounds from_bounds rasterize a e).
Local Abbreviation blank :=
  (zeros2 (tile_size a e) (tile_size a e) float64).

(** The tile step, case by case. *)
Lemma postgis_tile_cases tile w :
  postgis_tile a e tile w =
    match e_pg_query e tile with
    | PgNoRow => (Ok tt, wrote tile blank w)
    | PgError =>
        if e_pg_reachable e
        then (Ok tt, wrote tile blank
                       (connected (logged (WarnInvalidGeometries tile) w)))
        else (Raise DatabaseError, logged (WarnInvalidGeometries tile) w)
    | PgRow wkb =>
        match decoded_raster wkb with
        | Ok raster => (Ok tt, wrote tile raster w)
        | Raise _ =>
            if e_pg_reachable e
            then (Ok tt, wrote tile blank
                           (connected (logged (WarnInvalidGeometries tile) w)))
            else (Raise DatabaseError, logged (WarnInvalidGeometries tile) w)
        | SysExit msg => (SysExit msg, w)
        end
    end.
Proof.
  unfold postgis_tile, decoded_raster.
  unfold mbind at 1 2 3 4, run_bind, Run.bind, try_except, lift, log, connect.
  destruct (e_pg_query e tile) as [| |wkb]; cbv beta iota.
  - by destruct (e_pg_reachable e).
  - done.
  - destruct (wkb_to_numpy (Some (default [] wkb))) as [out| |];
      cbn [mbind outcome_bind Py.bind fst snd except_Exception];
      [|by destruct (e_pg_reachable e)|done].
    destruct (squeeze_axis2 out);
      cbn [fst snd except_Exception]; [done| |done].
    by destruct (e_pg_reachable e).
Qed.

(** The tile step on a failure. *)
Lemma failed_tile_step tile w :
  e_pg_reachable e = true →
  postgis_failed e tile = true →
  postgis_tile a e tile w
    = (Ok tt, wrote tile blank
                (connected (logged (WarnInvalidGeometries tile) w))).
Proof.
  intros Hr Hf. rewrite postgis_tile_cases. unfold postgis_failed in Hf.
  destruct (e_pg_query e tile) as [| |wkb]; [by rewrite Hr|done|].
  destruct (decoded_raster wkb); [done|by rewrite Hr|done].
Qed.

(** When the query of a tile raises, or the decoding of its row does, the
    run logs the warning for the tile, opens a new connection, writes the
    float64 blank raster and goes on. *)
Theorem postgis_tile_failure tile w :
  e_pg_reachable e = true →
  postgis_failed e tile = true →
  postgis_tile a e tile w
    = (Ok tt, wrote tile blank
                (connected (logged (WarnInvalidGeometries tile) w))).
Proof. apply failed_tile_step. Qed.

(** A row whose column is NULL, empty or shorter than 61 bytes is handled
    as a failure of the tile. *)
Theorem postgis_short_row_fails tile wkb w :
  e_pg_reachable e = true →
  e_pg_query e tile = PgRow wkb →
  (length (default [] wkb) < 61)%nat →
  postgis_tile a e tile w
    = (Ok tt, wrote tile blank
                (connected (logged (WarnInvalidGeometries tile) w))).
Proof.
  intros Hr Hq Hl. apply failed_tile_step; [done|].
  unfold postgis_failed, decoded_raster. rewrite Hq.
  by rewrite short_stream_struct_error.
Qed.

(** A row with a one-band payload that fits its header is written as
    that band: element type of its code, height and width of the header
    (whatever [tile_size] is), the pixel bytes as they are; nothing is
    logged. *)
Theorem postgis_tile_single_band tile flag0 s hd code size dtype b trailing w :
  e_pg_query e tile = PgRow (Some (flag0 :: s)) →
  read_header LittleEndian s = Ok (hd, band_bytes b ++ trailing) →
  h_bands hd = 1 →
  getitem size_table code = Ok size →
  getitem dtype_table code = Ok dtype →
  band_fits hd code size b →
  postgis_tile a e tile w
    = (Ok tt, wrote tile (Array2 dtype (h_height hd) (h_width hd) (bs_pixels b)) w).
Proof.
  intros Hq Hh Hn Hsize Hdtype Hfit.
  rewrite postgis_tile_cases, Hq. unfold decoded_raster. simpl default.
  rewrite (fitting_bands_decode flag0 s hd code size dtype [b] trailing);
    try done.
  - unfold bands_bytes. simpl. by rewrite app_nil_r.
  - by rewrite Hn.
  - by constructor.
Qed.

Lemma postgis_cover_loop cover w :
  e_pg_reachable e = true →
  (∀ tile wkb msg, tile ∈ cover → e_pg_query e tile = PgRow wkb →
     decoded_raster wkb ≠ SysExit msg) →
  for_fold cover (λ _ t, postgis_tile a e t) tt w
    = (Ok tt,
       World
         (w_log w ++ (WarnInvalidGeometries <$> List.filter (postgis_failed e) cover))
         (w_written w ++ ((λ t, (t, postgis_raster a e t)) <$> cover))
         (w_connections w + length (List.filter (postgis_failed e) cover))).
Proof.
  intros Hr. revert w.
  induction cover as [|tile cover IH]; intros w Hexit.
  { simpl. destruct w. by rewrite !app_nil_r, Nat.add_0_r. }
  cbn [for_fold]. unfold mbind, run_bind, Run.bind.
  rewrite postgis_tile_cases.
  assert (∀ tile' wkb msg, tile' ∈ cover → e_pg_query e tile' = PgRow wkb →
            decoded_raster wkb ≠ SysExit msg) as Hexit'.
  { intros tile' wkb msg Hin. apply Hexit. by right. }
  cbn [List.filter fmap list_fmap].
  pose proof (Hexit tile) as Htile.
  assert (∀ l (x : log_entry) k, (l ++ [x]) ++ k = l ++ x :: k) as Hlog
    by (intros; by rewrite <- app_assoc).
  assert (∀ l (x : Tile * ndarray2) k, (l ++ [x]) ++ k = l ++ x :: k) as Hwritten
    by (intros; by rewrite <- app_assoc).
  destruct (e_pg_query e tile) as [| |wkb] eqn:Hq.
  - assert (postgis_failed e tile = true) as ->
      by (unfold postgis_failed; by rewrite Hq).
    assert (postgis_raster a e tile = blank) as ->
      by (unfold postgis_raster; by rewrite Hq).
    rewrite Hr, (IH _ Hexit'). unfold wrote, connected, logged. simpl.
    by rewrite Hlog, Hwritten, Nat.add_succ_r.
  - assert (postgis_failed e tile = false) as ->
      by (unfold postgis_failed; by rewrite Hq).
    assert (postgis_raster a e tile = blank) as ->
      by (unfold postgis_raster; by rewrite Hq).
    rewrite (IH _ Hexit'). unfold wrote. simpl. by rewrite Hwritten.
  - destruct (decoded_raster wkb) as [raster|ex|msg] eqn:Hd.
    + assert (postgis_failed e tile = false) as ->
        by (unfold postgis_failed; by rewrite Hq, Hd).
      assert (postgis_raster a e tile = raster) as ->
        by (unfold postgis_raster; by rewrite Hq, Hd).
      rewrite (IH _ Hexit'). unfold wrote. simpl. by rewrite Hwritten.
    + assert (postgis_failed e tile = true) as ->
        by (unfold postgis_failed; by rewrite Hq, Hd).
      assert (postgis_raster a e tile = blank) as ->
        by (unfold postgis_raster; by rewrite Hq, Hd).
      rewrite Hr, (IH _ Hexit'). unfold wrote, connected, logged. simpl.
      by rewrite Hlog, Hwritten, Nat.add_succ_r.
    + exfalso. apply (Htile wkb msg); [by left|done|done].
Qed.

(** When the database answers and no row makes the decoder leave
    through [sys.exit], the PostGIS run comes to its end: it has written
    one raster per tile of the cover, in the order of the cover, logged
    one warning per failed tile and opened one connection at the start and
    one after each failure. *)
Theorem postgis_run_completes w :
  postgis_only a →
  e_pg_reachable e = true →
  is_Some (e_pg_srid e) →
  postgis_no_exit e →
  main' w
    = (Ok tt,
       World
         (w_log w
            ++ (WarnInvalidGeometries <$> List.filter (postgis_failed e) (e_cover e)))
         (w_written w ++ ((λ t, (t, postgis_raster a e t)) <$> e_cover e))
         (S (w_connections w)
            + length (List.filter (postgis_failed e) (e_cover e)))).
Proof.
  intros Ha Hr Hs Hexit.
  rewrite main_postgis_only, main_postgis_cover by done.
  by rewrite postgis_cover_loop.
Qed.


(** With both inputs or with neither, the run leaves through [sys.exit]
    before anything else. *)
Theorem ambiguous_input_exits w :
  given_list (a_geojson a) = given_str (a_postgis a) →
  main' w = (SysExit input_msg, w).
Proof.
  intros Heq. unfold main. rewrite Heq.
  by destruct (given_str (a_postgis a)).
Qed.

End PostgisTiles.

(** * Further properties of the GeoJSON path *)

Lemma getitem_lookup {A} (l : list A) (i : nat) x :
  l !! i = Some x → getitem l (Z.of_nat i) = Ok x.
Proof.
  intros Hx. pose proof (lookup_lt_Some _ _ _ Hx) as Hi.
  unfold getitem.
  destruct (Z.ltb_spec (Z.of_nat i) 0); [lia|].
  destruct (Z.leb_spec 0 (Z.of_nat i)),
           (Z.ltb_spec (Z.of_nat i) (Z.of_nat (length l))); simpl; try lia.
  by rewrite Nat2Z.id, Hx.
Qed.

Lemma map_outcome_ok {A B} (f : A → outcome B) (g : A → B) (P : A → Prop) l :
  (∀ x, P x → f x = Ok (g x)) →
  Forall P l → map_outcome f l = Ok (g <$> l).
Proof.
  intros Hf Hl. induction Hl as [|x l Hx _ IH]; [done|].
  simpl. by rewrite (Hf x Hx), IH.
Qed.

Lemma map_outcome_raise {A B} (f : A → outcome B) ex (Q : A → Prop) l :
  (∀ x, (∃ y, f x = Ok y) ∨ f x = Raise ex) →
  (∀ x, Q x → f x = Raise ex) →
  Exists Q l → map_outcome f l = Raise ex.
Proof.
  intros Hf HQ Hl. induction Hl as [x l Hx|x l _ IH]; simpl.
  - by rewrite (HQ x Hx).
  - destruct (Hf x) as [[y ->]| ->]; [|done]. simpl. by rewrite IH.
Qed.

Section Normalisation.
Context {coord : Type}.
Implicit Types (pt : point coord) (r : ring coord) (p : polygon coord).

Lemma point_xy pt :
  (2 ≤ length pt)%nat →
  (x ← getitem pt 0; y ← getitem pt 1; mret [x; y]) = Ok (take 2 pt).
Proof.
  intros Hl. destruct pt as [|x [|y pt]]; simpl in Hl; try lia.
  rewrite (getitem_lookup _ 0 x), (getitem_lookup _ 1 y); done.
Qed.

Lemma point_short pt :
  (length pt < 2)%nat →
  (x ← getitem pt 0; y ← getitem pt 1; mret [x; y])
    = (Raise IndexError : outcome (point coord)).
Proof.
  intros Hl. destruct pt as [|x [|y pt]]; simpl in Hl; try lia.
  - by rewrite getitem_out_of_range.
  - rewrite (getitem_lookup _ 0 x) by done.
    cbn [mbind outcome_bind Py.bind].
    by rewrite getitem_out_of_range.
Qed.

Lemma point_ok_or_raise pt :
  (∃ y, (x ← getitem pt 0; y ← getitem pt 1; mret [x; y]) = Ok y)
  ∨ (x ← getitem pt 0; y ← getitem pt 1; mret [x; y])
      = (Raise IndexError : outcome (point coord)).
Proof.
  destruct (decide (2 ≤ length pt)%nat).
  - left. eexists. by apply point_xy.
  - right. apply point_short. lia.
Qed.

Lemma ring_2d_ok r :
  Forall (λ pt, (2 ≤ length pt)%nat) r → ring_2d r = Ok (take 2 <$> r).
Proof. apply map_outcome_ok. intros pt. apply point_xy. Qed.

Lemma ring_2d_short r :
  Exists (λ pt, (length pt < 2)%nat) r → ring_2d r = Raise IndexError.
Proof.
  apply map_outcome_raise; [apply point_ok_or_raise|].
  intros pt. apply point_short.
Qed.

Lemma ring_2d_ok_or_raise r :
  (∃ r', ring_2d r = Ok r') ∨ ring_2d r = Raise IndexError.
Proof.
  destruct (decide (Forall (λ pt, (2 ≤ length pt)%nat) r)) as [Hr|Hr].
  - left. eexists. by apply ring_2d_ok.
  - right. apply ring_2d_short. apply not_Forall_Exists in Hr; [|apply _].
    eapply Exists_impl; [exact Hr|]. simpl. intros; lia.
Qed.

Lemma polygon_2d_ok p :
  has_xy p → map_outcome ring_2d p = Ok (polygon_2d p).
Proof. apply map_outcome_ok. intros r. apply ring_2d_ok. Qed.

Lemma polygon_2d_short p :
  Exists (Exists (λ pt, (length pt < 2)%nat)) p →
  map_outcome ring_2d p = Raise IndexError.
Proof.
  apply map_outcome_raise; [apply ring_2d_ok_or_raise|].
  intros r. apply ring_2d_short.
Qed.

Lemma polygon_2d_is_2d p : has_xy p → is_2d (polygon_2d p).
Proof.
  unfold has_xy, is_2d, polygon_2d. intros Hp.
  apply Forall_fmap. eapply Forall_impl; [exact Hp|].
  intros r Hr. simpl. apply Forall_fmap. eapply Forall_impl; [exact Hr|].
  intros pt Hpt. simpl in *. rewrite length_take. lia.
Qed.

Lemma map_outcome_ring_2d_cases p :
  (has_xy p ∧ map_outcome ring_2d p = Ok (polygon_2d p))
  ∨ map_outcome ring_2d p = Raise IndexError.
Proof.
  destruct (decide (has_xy p)) as [Hp|Hp].
  - left. split; [done|]. by apply polygon_2d_ok.
  - right. apply polygon_2d_short.
    apply not_Forall_Exists in Hp; [|apply _].
    eapply Exists_impl; [exact Hp|]. intros r Hr. simpl in Hr.
    apply not_Forall_Exists in Hr; [|apply _].
    eapply Exists_impl; [exact Hr|]. simpl. intros; lia.
Qed.

End Normalisation.

Lemma occurrences_cons tile t tiles :
  occurrences tile (t :: tiles)
    = if decide (t = tile) then S (occurrences tile tiles)
      else occurrences tile tiles.
Proof.
  unfold occurrences. simpl. case_bool_decide; by case_decide.
Qed.

Section ParsePolygon.
Context {coord : Type}.
Variable burn : polygon coord → option Z → outcome (list Tile).
Variable a : args.
Implicit Types (p q : polygon coord) (fm : gmap Tile (list (polygon coord))).

(** The function, case by case on the normalisation and on [burn]. *)
Lemma geojson_parse_polygon_cases fm p i w :
  geojson_parse_polygon burn a fm p i w =
    match p' ← map_outcome ring_2d p;
          tiles ← burn p' (a_zoom a);
          mret (p', tiles) with
    | Ok (p', tiles) =>
        (Ok (foldl (λ fm tile, fm_append fm tile p') fm tiles), w)
    | Raise ex =>
        if is_ValueError ex
        then (Ok fm, logged (WarnInvalidFeature (index_after_rings p i)) w)
        else (Raise ex, w)
    | SysExit msg => (SysExit msg, w)
    end.
Proof.
  unfold geojson_parse_polygon, try_except.
  unfold mbind at 1 2 3 4, run_bind, Run.bind, lift, log, logged.
  destruct (map_outcome ring_2d p) as [p'| |]; simpl; [|done..].
  by destruct (burn p' (a_zoom a)).
Qed.

Lemma foldl_fm_append_lookup q tiles fm tile :
  foldl (λ fm t, fm_append fm t q) fm tiles !! tile
    = match occurrences tile tiles with
      | O => fm !! tile
      | S n => Some (default [] (fm !! tile) ++ replicate (S n) q)
      end.
Proof.
  revert fm. induction tiles as [|t tiles IH]; intros fm; [done|].
  cbn [foldl]. rewrite IH, occurrences_cons. unfold fm_append.
  destruct (decide (t = tile)) as [->|Hne].
  - rewrite lookup_insert_eq. simpl.
    destruct (occurrences tile tiles) as [|n]; [done|].
    by rewrite <- app_assoc.
  - by rewrite lookup_insert_ne.
Qed.

(** A polygon whose points have two coordinates or more and that [burn]
    accepts is added, cut down to 2-D, at the end of the entry of every
    tile that [burn] gives, once per occurrence of the tile; the other
    entries are as before and nothing is logged. *)
Theorem geojson_parse_polygon_appends fm p i w tiles :
  has_xy p →
  burn (polygon_2d p) (a_zoom a) = Ok tiles →
  ∃ fm',
    geojson_parse_polygon burn a fm p i w = (Ok fm', w)
    ∧ ∀ tile,
        fm' !! tile
          = match occurrences tile tiles with
            | O => fm !! tile
            | S n => Some (default [] (fm !! tile)
                             ++ replicate (S n) (polygon_2d p))
            end.
Proof.
  intros Hp Hburn. eexists. split.
  - rewrite geojson_parse_polygon_cases, (polygon_2d_ok p Hp). simpl.
    by rewrite Hburn.
  - intros tile. apply foldl_fm_append_lookup.
Qed.

(** When [burn] raises on the polygon, a [ValueError] is caught: the
    feature map is as before and a warning is logged, whose number is the
    index of the last ring of the polygon (the feature index only for a
    polygon without ring).  Any other exception leaves the function. *)
Theorem geojson_parse_polygon_burn_raises fm p i w ex :
  has_xy p →
  burn (polygon_2d p) (a_zoom a) = Raise ex →
  geojson_parse_polygon burn a fm p i w
    = if is_ValueError ex
      then (Ok fm,
            logged (WarnInvalidFeature
                      match p with
                      | [] => i
                      | _ :: _ => Z.of_nat (length p) - 1
                      end) w)
      else (Raise ex, w).
Proof.
  intros Hp Hburn.
  rewrite geojson_parse_polygon_cases, (polygon_2d_ok p Hp). simpl.
  rewrite Hburn. simpl. by destruct p.
Qed.

(** A point with fewer than two coordinates anywhere in the polygon makes
    the function raise [IndexError], which it does not catch; [burn] is
    not reached and nothing is logged. *)
Theorem geojson_parse_polygon_short_point fm p i w :
  Exists (Exists (λ pt : point coord, (length pt < 2)%nat)) p →
  geojson_parse_polygon burn a fm p i w = (Raise IndexError, w).
Proof.
  intros Hp.
  by rewrite geojson_parse_polygon_cases, (polygon_2d_short p Hp).
Qed.

End ParsePolygon.

(** ** What the spatial index keeps *)

Lemma same_output_trans w1 w2 w3 :
  same_output w1 w2 → same_output w2 w3 → same_output w1 w3.
Proof. intros [] []. split; congruence. Qed.

Lemma same_output_logged entry w : same_output w (logged entry w).
Proof. by split. Qed.

Lemma for_fold_kept {A S} (P : S → Prop) (body : S → A → run S) xs :
  (∀ acc x w acc' w',
     P acc → body acc x w = (Ok acc', w') → P acc' ∧ same_output w w') →
  ∀ acc w acc' w',
    P acc → for_fold xs body acc w = (Ok acc', w') →
    P acc' ∧ same_output w w'.
Proof.
  intros Hbody. induction xs as [|x xs IH]; intros acc w acc' w' Hacc; simpl.
  { intros [= <- <-]. split; [done|apply same_output_refl]. }
  unfold mbind, run_bind, Run.bind.
  destruct (body acc x w) as [[acc1| |] w1] eqn:Hstep; try discriminate.
  intros Hrest.
  destruct (Hbody _ _ _ _ _ Hacc Hstep) as [Hacc1 Hw1].
  destruct (IH _ _ _ _ Hacc1 Hrest) as [Hacc' Hw'].
  split; [done|]. by apply (same_output_trans _ w1).
Qed.

Section IndexKept.
Context {coord : Type}.
Variable burn : polygon coord → option Z → outcome (list Tile).
Variable a : args.
Implicit Types (fm : gmap Tile (list (polygon coord))).

Lemma fm_append_ok fm tile (q : polygon coord) :
  feature_map_ok fm → is_2d q → feature_map_ok (fm_append fm tile q).
Proof.
  intros Hfm Hq tile' features. unfold fm_append.
  destruct (decide (tile = tile')) as [<-|Hne].
  - rewrite lookup_insert_eq. intros [= <-]. split.
    + by destruct (default [] (fm !! tile)).
    + apply Forall_app. split; [|by constructor].
      destruct (fm !! tile) as [old|] eqn:Hold; [|by constructor].
      by apply (Hfm tile old).
  - rewrite lookup_insert_ne by done. apply Hfm.
Qed.

Lemma foldl_fm_append_ok (q : polygon coord) tiles fm :
  feature_map_ok fm → is_2d q →
  feature_map_ok (foldl (λ fm t, fm_append fm t q) fm tiles).
Proof.
  intros Hfm Hq. revert fm Hfm.
  induction tiles as [|t tiles IH]; intros fm Hfm; [done|].
  simpl. apply IH. by apply fm_append_ok.
Qed.

Lemma geojson_parse_polygon_kept fm p i w fm' w' :
  feature_map_ok fm →
  geojson_parse_polygon burn a fm p i w = (Ok fm', w') →
  feature_map_ok fm' ∧ same_output w w'.
Proof.
  intros Hfm. rewrite geojson_parse_polygon_cases.
  destruct (map_outcome_ring_2d_cases p) as [[Hp ->]| ->]; simpl.
  - destruct (burn (polygon_2d p) (a_zoom a)) as [tiles|ex|]; simpl.
    + intros [= <- <-]. split; [|apply same_output_refl].
      apply foldl_fm_append_ok; [done|by apply polygon_2d_is_2d].
    + destruct (is_ValueError ex); [|discriminate].
      intros [= <- <-]. split; [done|apply same_output_logged].
    + discriminate.
  - discriminate.
Qed.

Lemma geojson_parse_geometry_kept fm g i w fm' w' :
  feature_map_ok fm →
  geojson_parse_geometry burn a fm g i w = (Ok fm', w') →
  feature_map_ok fm' ∧ same_output w w'.
Proof.
  intros Hfm. destruct g as [p|ps|gs|ty]; simpl.
  - by apply geojson_parse_polygon_kept.
  - apply (for_fold_kept feature_map_ok); [|done].
    intros acc p w1 acc' w1'. apply geojson_parse_polygon_kept.
  - intros [= <- <-]. split; [done|apply same_output_logged].
  - intros [= <- <-]. split; [done|apply same_output_logged].
Qed.

Lemma geojson_parse_feature_kept fm feature w fm' w' :
  feature_map_ok fm →
  geojson_parse_feature burn a fm feature w = (Ok fm', w') →
  feature_map_ok fm' ∧ same_output w w'.
Proof.
  intros Hfm. destruct feature as [i g]. unfold geojson_parse_feature.
  destruct g as [p|ps|gs|ty]; try by apply geojson_parse_geometry_kept.
  apply (for_fold_kept feature_map_ok); [|done].
  intros acc g w1 acc' w1'. apply geojson_parse_geometry_kept.
Qed.

Variable e : env coord.

Lemma geojson_parse_file_kept acc f w acc' w' :
  feature_map_ok acc.1 →
  geojson_parse_file burn a e acc f w = (Ok acc', w') →
  feature_map_ok acc'.1 ∧ same_output w w'
  ∧ acc'.2 = fc_epsg (e_fiona_open e f).
Proof.
  intros Hfm. unfold geojson_parse_file.
  unfold mbind, run_bind, Run.bind.
  destruct (for_fold _ _ _ w) as [[fm| |] w1] eqn:Hloop; try discriminate.
  intros [= <- <-]. simpl.
  destruct (for_fold_kept feature_map_ok _ _
              (λ acc x w acc' w', geojson_parse_feature_kept acc x w acc' w')
              _ _ _ _ Hfm Hloop) as [Hfm' Hw].
  done.
Qed.

(** What holds when the index returns. *)
Lemma spatial_index_kept w feature_map epsg w' :
  geojson_spatial_index burn a e w = (Ok (feature_map, epsg), w') →
  feature_map_ok feature_map
  ∧ w_written w' = w_written w
  ∧ w_connections w' = w_connections w.
Proof.
  intros Hindex. unfold geojson_spatial_index in Hindex.
  assert (feature_map_ok (∅ : gmap Tile (list (polygon coord)))) as Hempty.
  { intros tile features Hin. by rewrite lookup_empty in Hin. }
  destruct (for_fold_kept (λ acc, feature_map_ok acc.1)
              (geojson_parse_file burn a e) (default [] (a_geojson a)))
    with (acc := (∅ : gmap Tile (list (polygon coord)), "4326"%string))
         (w := w) (acc' := (feature_map, epsg)) (w' := w')
    as [Hfm [Hwritten Hconn]]; try done.
  intros acc f w1 acc' w1' Hacc Hstep.
  by destruct (geojson_parse_file_kept acc f w1 acc' w1' Hacc Hstep) as (? & ? & _).
Qed.

(** When the spatial index returns, every entry of its feature map is a
    non-empty list of polygons whose points all have exactly two
    coordinates; no raster was written and no connection opened while it
    was built. *)
Theorem geojson_spatial_index_entries w feature_map epsg w' :
  geojson_spatial_index burn a e w = (Ok (feature_map, epsg), w') →
  feature_map_ok feature_map
  ∧ w_written w' = w_written w
  ∧ w_connections w' = w_connections w.
Proof. apply spatial_index_kept. Qed.


End IndexKept.

(** ** The GeoJSON run as a whole *)


Section GeojsonRun.
Context {coord bounds affine : Type}.
Variable burn : polygon coord → option Z → outcome (list Tile).
Variable warp_transform : string → list (list coord) → outcome (list (list coord)).
Variable xy_bounds : Tile → bounds.
Variable from_bounds : bounds → Z → Z → affine.
Variable rasterize : list (polygon coord * Z) → Z * Z → affine → outcome ndarray2.
Variable a : args.
Variable e : env coord.

Local Abbreviation main' :=
  (main burn warp_transform xy_bounds from_bounds rasterize a e).
Local Abbreviation geojson_tile' :=
  (geojson_tile warp_transform xy_bounds from_bounds rasterize a e).
Local Abbreviation geojson_raster' :=
  (geojson_raster warp_transform xy_bounds from_bounds rasterize a e).
Local Abbreviation blank := (zeros2 (tile_size a e) (tile_size a e) uint8).

Lemma geojson_cover_loop feature_map epsg cover w :
  (∀ tile features,
     tile ∈ cover → feature_map !! tile = Some features →
     ∃ raster,
       geojson_tile_burn warp_transform xy_bounds from_bounds rasterize
         tile features (tile_size a e) burn_value epsg = Ok raster) →
  for_fold cover (λ _ t, geojson_tile' feature_map epsg t) tt w
    = (Ok tt,
       World (w_log w)
         (w_written w ++ ((λ t, (t, geojson_raster' feature_map epsg t)) <$> cover))
         (w_connections w)).
Proof.
  revert w. induction cover as [|tile cover IH]; intros w Hburn.
  { simpl. destruct w. by rewrite app_nil_r. }
  cbn [for_fold fmap list_fmap]. unfold mbind, run_bind, Run.bind.
  assert (geojson_tile' feature_map epsg tile w
          = (Ok tt, wrote tile (geojson_raster' feature_map epsg tile) w))
    as ->.
  { unfold geojson_tile, geojson_raster, mbind, run_bind, Run.bind, lift.
    destruct (feature_map !! tile) as [features|] eqn:Hfm; [|done].
    destruct (Hburn tile features) as [raster ->]; [by left|done|done]. }
  rewrite IH.
  - unfold wrote. simpl. by rewrite <- app_assoc.
  - intros tile' features Hin. apply Hburn. by right.
Qed.

(** The run after the index. *)
Lemma geojson_cover_written w feature_map epsg w1 :
  geojson_only a →
  forallb (zoom_matches a) (e_cover e) = true →
  geojson_spatial_index burn a e w = (Ok (feature_map, epsg), w1) →
  geojson_burns_return warp_transform xy_bounds from_bounds rasterize
    a e feature_map epsg →
  main' w
    = (Ok tt,
       World (w_log w1)
         (w_written w
            ++ ((λ t, (t, geojson_raster' feature_map epsg t)) <$> e_cover e))
         (w_connections w)).
Proof.
  intros Ha Hzoom Hindex Hburn.
  rewrite main_geojson_only by done. unfold main_geojson.
  rewrite Hzoom. simpl. unfold mbind at 1, run_bind, Run.bind.
  rewrite Hindex, geojson_cover_loop by done.
  by destruct (spatial_index_kept _ _ _ _ _ _ _ Hindex)
    as (_ & -> & ->).
Qed.

(** When the zoom levels agree, the spatial index returns and the burn
    of every cover tile with features returns, the GeoJSON run comes to
    its end having written one raster per tile of the cover, in the order
    of the cover: the burnt features for a tile with an entry, the blank
    raster otherwise.  It logs nothing after the index and never opens a
    connection. *)
Theorem geojson_run_completes w feature_map epsg w1 :
  geojson_only a →
  forallb (zoom_matches a) (e_cover e) = true →
  geojson_spatial_index burn a e w = (Ok (feature_map, epsg), w1) →
  geojson_burns_return warp_transform xy_bounds from_bounds rasterize
    a e feature_map epsg →
  main' w
    = (Ok tt,
       World (w_log w1)
         (w_written w
            ++ ((λ t, (t, geojson_raster' feature_map epsg t)) <$> e_cover e))
         (w_connections w)).
Proof. apply geojson_cover_written. Qed.





End GeojsonRun.

(** ** A GeometryCollection and its members *)

Section Collections.
Context {coord : Type}.
Variable burn : polygon coord → option Z → outcome (list Tile).
Variable a : args.

Local Abbreviation parse_feature := (geojson_parse_feature burn a).



End Collections.

(** ** The reprojection of a feature *)

Lemma zip_star_upto_pairs {A} n (xs ys : list A) :
  (length xs ≤ n)%nat →
  zip_star_upto n [xs; ys] = zip_with (λ x y, [x; y]) xs ys.
Proof.
  revert xs ys. induction n as [|n IH]; intros xs ys Hn.
  { destruct xs; [done|simpl in Hn; lia]. }
  destruct xs as [|x xs]; [done|].
  destruct ys as [|y ys]; [done|].
  simpl. f_equal. apply IH. simpl in Hn. lia.
Qed.

Lemma zip_star_pairs {A} (xs ys : list A) :
  zip_star [xs; ys] = zip_with (λ x y, [x; y]) xs ys.
Proof. unfold zip_star. by apply zip_star_upto_pairs. Qed.

Lemma mapM_head_2d {A} (r : list (list A)) :
  Forall (λ pt, (1 ≤ length pt)%nat) r →
  mapM head r = Some (mjoin (take 1 <$> r)).
Proof.
  induction 1 as [|pt r Hpt _ IH]; [done|].
  destruct pt as [|x pt]; [simpl in Hpt; lia|].
  cbn [mapM fmap list_fmap mjoin list_join take head].
  rewrite IH. done.
Qed.

Lemma zip_star_ring {A} (r : list (list A)) :
  r ≠ [] → Forall (λ pt, length pt = 2%nat) r →
  zip_star r = [mjoin (take 1 <$> r); mjoin (drop 1 <$> r)].
Proof.
  intros Hne Hr. unfold zip_star.
  destruct r as [|pt0 r0] eqn:Hreq; [done|]. rewrite <- Hreq in *.
  assert (length pt0 = 2%nat) as ->.
  { rewrite Hreq in Hr. by apply Forall_cons in Hr as [? _]. }
  clear Hreq Hne pt0 r0.
  cbn [zip_star_upto].
  rewrite mapM_head_2d by (eapply Forall_impl; [exact Hr|]; simpl; lia).
  assert (mapM head (tail <$> r) = Some (mjoin (drop 1 <$> r))) as ->.
  { induction Hr as [|pt r Hpt _ IH]; [done|].
    destruct pt as [|x [|y [|z pt]]]; try done.
    cbn [mapM fmap list_fmap mjoin list_join drop tail head].
    by rewrite IH. }
  done.
Qed.

Section Mercator.
Context {coord : Type}.
Variable warp_transform : string → list (list coord) → outcome (list (list coord)).

(** For a feature whose rings are non-empty and 2-D, the transform is
    called once per ring with two lists, the xs and the ys of the ring in
    the order of its points; when it returns two lists for every ring, the
    result pairs them again, point by point, ring by ring. *)
Theorem geojson_to_mercator_points (feature : polygon coord) epsg
    (moved : ring coord → list coord * list coord) :
  Forall (λ r, ring_xy r
               ∧ warp_transform epsg [ring_xs r; ring_ys r]
                 = Ok [(moved r).1; (moved r).2]) feature →
  geojson_to_mercator warp_transform feature epsg
    = Ok ((λ r, zip_with (λ x y, [x; y]) (moved r).1 (moved r).2) <$> feature).
Proof.
  unfold geojson_to_mercator. apply map_outcome_ok.
  intros r [[Hne Hr] Hmoved].
  rewrite zip_star_ring by done. fold (ring_xs r) (ring_ys r).
  rewrite Hmoved. cbn [mbind outcome_bind Py.bind].
  by rewrite zip_star_pairs.
Qed.

End Mercator.

(** * The further properties on example inputs *)

Lemma wkb_to_numpy_decodes_witness :
  wkb_to_numpy (Some fitting_payload)
    = Ok (Some (Array3 u1 1 2 2 [[x01; x02]; [x03; x04]])).
Proof.
  apply (wkb_to_numpy_decodes x00
           (raster_header LittleEndian 2 2 1 ++ bands_bytes fitting_bands ++ [xaa])
           (Header 2 3857 2 1) 4 1 u1 fitting_bands [xaa]).
  - vm_compute. reflexivity.
  - reflexivity.
  - discriminate.
  - reflexivity.
  - reflexivity.
  - repeat constructor.
Defined.

Lemma wkb_to_numpy_well_shaped_witness :
  ∃ hd rest flag0,
    read_header LittleEndian (drop 1 (two_band_payload x04)) = Ok (hd, rest)
    ∧ band0_flag (two_band_payload x04) = Some flag0
    ∧ getitem dtype_table (pixel_code flag0) = Ok u1
    ∧ well_shaped hd (Array3 u1 1 2 2 [[x01; x00]; [x00; x01]]).
Proof.
  apply (wkb_to_numpy_well_shaped (two_band_payload x04)
           (Array3 u1 1 2 2 [[x01; x00]; [x00; x01]])).
  vm_compute. reflexivity.
Defined.

Lemma wkb_to_numpy_short_stream_witness :
  wkb_to_numpy (Some (x01 :: replicate 59 x00)) = Raise StructError.
Proof. apply wkb_to_numpy_short_stream. vm_compute. lia. Defined.

Lemma read_header_total_witness :
  ∃ hd, read_header BigEndian (tail big_endian_payload)
          = Ok (hd, drop 60 (tail big_endian_payload))
        ∧ 0 ≤ h_bands hd < 65536
        ∧ 0 ≤ h_width hd < 65536
        ∧ 0 ≤ h_height hd < 65536.
Proof. apply read_header_total. vm_compute. lia. Defined.


Lemma wkb_to_numpy_no_band_witness :
  wkb_to_numpy (Some (x01 :: raster_header LittleEndian 0 2 1 ++ [x04; x00]))
    = Ok None.
Proof.
  apply (wkb_to_numpy_no_band x01 _ (Header 0 3857 2 1) [x04; x00]).
  - vm_compute. reflexivity.
  - reflexivity.
Defined.

Lemma postgis_tile_failure_witness :
  postgis_tile postgis_args example_postgis_env (0, 0, 2) world0
    = (Ok tt,
       wrote (0, 0, 2) (zeros2 2 2 float64)
         (connected (logged (WarnInvalidGeometries (0, 0, 2)) world0))).
Proof.
  apply (postgis_tile_failure postgis_args example_postgis_env (0, 0, 2) world0);
    reflexivity.
Defined.

Lemma postgis_short_row_fails_witness :
  postgis_tile postgis_args (postgis_env (PgRow None)) (0, 0, 1) world0
    = (Ok tt,
       wrote (0, 0, 1) (zeros2 2 2 float64)
         (connected (logged (WarnInvalidGeometries (0, 0, 1)) world0))).
Proof.
  apply (postgis_short_row_fails postgis_args (postgis_env (PgRow None))
           (0, 0, 1) None world0).
  - reflexivity.
  - reflexivity.
  - simpl. lia.
Defined.

Lemma postgis_tile_single_band_witness :
  postgis_tile postgis_args (postgis_env (PgRow (Some (one_band_payload x04))))
      (0, 0, 1) world0
    = (Ok tt, wrote (0, 0, 1) (Array2 u1 1 2 [x01; x00]) world0).
Proof.
  apply (postgis_tile_single_band postgis_args
           (postgis_env (PgRow (Some (one_band_payload x04)))) (0, 0, 1)
           x01 (raster_header LittleEndian 1 2 1 ++ [x04; x00; x01; x00])
           (Header 1 3857 2 1) 4 1 u1 (BandSource x04 [x00] [x01; x00]) []
           world0).
  - reflexivity.
  - vm_compute. reflexivity.
  - reflexivity.
  - reflexivity.
  - reflexivity.
  - repeat split.
Defined.

Lemma postgis_run_completes_witness :
  example_main [] postgis_args example_postgis_env world0
    = (Ok tt,
       World [WarnInvalidGeometries (0, 0, 2)]
         [((0, 0, 2), zeros2 2 2 float64);
          ((1, 0, 2), zeros2 2 2 float64);
          ((2, 0, 2), Array2 u1 1 2 [x01; x00])]
         2).
Proof.
  unfold example_main.
  rewrite (postgis_run_completes (burn_at []) warp_id (λ _, tt) (λ _ _ _, tt)
             rasterize_count postgis_args example_postgis_env world0).
  - vm_compute. reflexivity.
  - split; reflexivity.
  - reflexivity.
  - by eexists.
  - intros tile wkb msg Hin Hq. simpl in Hin.
    repeat (apply elem_of_cons in Hin as [->|Hin]); try discriminate Hq.
    + injection Hq as <-. vm_compute. discriminate.
    + by apply elem_of_nil in Hin.
Defined.


Lemma ambiguous_input_exits_witness :
  example_main [] (Args None None None None) (postgis_env PgNoRow) world0
    = (SysExit input_msg, world0)
  ∧ example_main [] (Args (Some "SELECT geom FROM building")
                       (Some ["buildings.geojson"]) (Some 1) None)
      (postgis_env PgNoRow) world0
    = (SysExit input_msg, world0).
Proof.
  split.
  - apply (ambiguous_input_exits (burn_at []) warp_id (λ _, tt) (λ _ _ _, tt)
             rasterize_count (Args None None None None)). reflexivity.
  - apply (ambiguous_input_exits (burn_at []) warp_id (λ _, tt) (λ _ _ _, tt)
             rasterize_count
             (Args (Some "SELECT geom FROM building")
                (Some ["buildings.geojson"]) (Some 1) None)). reflexivity.
Defined.

Lemma geojson_parse_polygon_appends_witness :
  ∃ fm',
    geojson_parse_polygon (burn_at [(0, 0, 1); (1, 0, 1); (0, 0, 1)])
        (geojson_args 1) {[ (1, 0, 1) := [square 0 0] ]} triangle_3d 5 world0
      = (Ok fm', world0)
    ∧ ∀ tile,
        fm' !! tile
          = match occurrences tile [(0, 0, 1); (1, 0, 1); (0, 0, 1)] with
            | O => ({[ (1, 0, 1) := [square 0 0] ]}
                      : gmap Tile (list (polygon Z))) !! tile
            | S n =>
                Some (default []
                        (({[ (1, 0, 1) := [square 0 0] ]}
                            : gmap Tile (list (polygon Z))) !! tile)
                        ++ replicate (S n) (polygon_2d triangle_3d))
            end.
Proof.
  apply (geojson_parse_polygon_appends
           (burn_at [(0, 0, 1); (1, 0, 1); (0, 0, 1)]) (geojson_args 1)
           {[ (1, 0, 1) := [square 0 0] ]} triangle_3d 5 world0
           [(0, 0, 1); (1, 0, 1); (0, 0, 1)]).
  - repeat constructor; simpl; lia.
  - reflexivity.
Defined.

Lemma geojson_parse_polygon_burn_raises_witness :
  geojson_parse_polygon (burn_fails ValueError) (geojson_args 1) ∅
      triangle_3d 5 world0
    = (Ok ∅, logged (WarnInvalidFeature 0) world0)
  ∧ geojson_parse_polygon (burn_fails TypeError) (geojson_args 1) ∅
      triangle_3d 5 world0
    = (Raise TypeError, world0).
Proof.
  assert (has_xy triangle_3d) as Hxy by (repeat constructor; simpl; lia).
  split.
  - apply (geojson_parse_polygon_burn_raises (burn_fails ValueError)
             (geojson_args 1) ∅ triangle_3d 5 world0 ValueError Hxy).
    reflexivity.
  - apply (geojson_parse_polygon_burn_raises (burn_fails TypeError)
             (geojson_args 1) ∅ triangle_3d 5 world0 TypeError Hxy).
    reflexivity.
Defined.

Lemma geojson_parse_polygon_short_point_witness :
  geojson_parse_polygon (burn_at [(0, 0, 1)]) (geojson_args 1) ∅
      [[[0; 0]; [4; 0]; [9]; [0; 0]]] 5 world0
    = (Raise IndexError, world0).
Proof.
  apply geojson_parse_polygon_short_point.
  apply Exists_cons_hd. do 2 apply Exists_cons_tl. apply Exists_cons_hd.
  simpl. lia.
Defined.

Lemma geojson_spatial_index_entries_witness :
  feature_map_ok ({[ (1, 1, 1) := [polygon_2d triangle_3d] ]}
                    : gmap Tile (list (polygon Z)))
  ∧ w_written world0 = w_written world0
  ∧ w_connections world0 = w_connections world0.
Proof.
  apply (geojson_spatial_index_entries (burn_at [(1, 1, 1)]) (geojson_args 1)
           (geojson_env [(0, 0, 1)] [Polygon triangle_3d]) world0
           {[ (1, 1, 1) := [polygon_2d triangle_3d] ]} "4326" world0).
  vm_compute. reflexivity.
Defined.


Lemma geojson_run_completes_witness :
  example_main [(1, 1, 1)] (geojson_args 1)
      (geojson_env [(0, 0, 1); (1, 1, 1)] [Polygon triangle_3d]) world0
    = (Ok tt,
       World []
         [((0, 0, 1), zeros2 2 2 uint8);
          ((1, 1, 1), Array2 uint8 2 2 [x01; x01; x01; x01])]
         0).
Proof.
  unfold example_main.
  rewrite (geojson_run_completes (burn_at [(1, 1, 1)]) warp_id (λ _, tt)
             (λ _ _ _, tt) rasterize_count (geojson_args 1)
             (geojson_env [(0, 0, 1); (1, 1, 1)] [Polygon triangle_3d]) world0
             {[ (1, 1, 1) := [polygon_2d triangle_3d] ]} "4326" world0).
  - vm_compute. reflexivity.
  - split; reflexivity.
  - reflexivity.
  - vm_compute. reflexivity.
  - intros tile features Hin Hfm. simpl in Hin.
    repeat (apply elem_of_cons in Hin as [->|Hin]).
    + vm_compute in Hfm. discriminate.
    + vm_compute in Hfm. injection Hfm as <-. eexists. vm_compute. reflexivity.
    + by apply elem_of_nil in Hin.
Defined.



Lemma geojson_to_mercator_points_witness :
  geojson_to_mercator warp_id (square 0 0) "4326" = Ok (square 0 0).
Proof.
  apply (geojson_to_mercator_points warp_id (square 0 0) "4326"
           (λ r, (ring_xs r, ring_ys r))).
  repeat constructor; discriminate.
Defined.
